(** * Parking USSD / WhatsApp router and fee engine

    A shallow embedding of [app/main.py], [app/utils.py] and the cursor
    context manager of [app/database.py], with the properties of the
    fee engine, the duration formatter and the session-less routers
    that the specification states about them, followed by further
    properties read off the code.

    Conventions of the embedding.
    - Python [int] is [Z]; [//] and [%] by a positive constant are
      [Z.div] and [Z.modulo] (both floor).
    - Python [str] is [string]; only the ASCII behaviour of [upper],
      [lower], [strip] and [split] is modelled.
    - A naive [datetime.datetime] is a point on one linear time line,
      counted in microseconds (the resolution of [datetime]); a
      [timedelta] is a difference of two such points.
    - [timedelta.total_seconds()] is the binary64 number nearest to
      microseconds / 10^6 (ties to even), as Python's true division of
      integers gives it; it is modelled with its rounding, which shows
      from gaps of 2^53 microseconds (about 285 years) on.  The float
      floor division by 60 that follows is exact on such a number.  The
      quotient fed to [math.ceil] is exact for every minute count a
      [timedelta] can hold and is modelled by integer arithmetic.
    - The two databases are tables of rows; every [with get_cursor(..)]
      block is one session that either commits or raises (and rolls
      back).  Which sessions raise is part of the environment, told per
      function that opens the session.  SQL [=] on plates is equality of
      strings, and [time_in] is never NULL.
    - What a handler does to the outside (store queries by helper,
      payment pushes, error logs) is recorded in a trace, oldest first;
      [logger.info] and [logger.debug] lines are left out. *)

From Stdlib Require Import ZArith List String Ascii Bool Lia.
From Stdlib Require Import DecimalString.
From Stdlib Require Import Permutation Sorted.
Import ListNotations.

Local Open Scope string_scope.
Local Open Scope Z_scope.

(** ** Python string primitives *)

Module PyStr.

(** [f"{n}"] for an [int]. *)
Definition str_of_int (n : Z) : string :=
  NilZero.string_of_int (Z.to_int n).

(** [str.isspace] on one ASCII character: TAB, LF, VT, FF, CR,
    FS, GS, RS, US and SPACE. *)
Definition isspace (c : ascii) : bool :=
  let n := nat_of_ascii c in
  ((9 <=? n)%nat && (n <=? 13)%nat)
  || ((28 <=? n)%nat && (n <=? 32)%nat).

Definition is_char (x : ascii) (c : ascii) : bool := Ascii.eqb c x.

Fixpoint filter (keep : ascii -> bool) (s : string) : string :=
  match s with
  | EmptyString => EmptyString
  | String c r => if keep c then String c (filter keep r) else filter keep r
  end.

Fixpoint map (f : ascii -> ascii) (s : string) : string :=
  match s with
  | EmptyString => EmptyString
  | String c r => String (f c) (map f r)
  end.

Fixpoint forallb (p : ascii -> bool) (s : string) : bool :=
  match s with
  | EmptyString => true
  | String c r => p c && forallb p r
  end.

(** [s.lstrip(chars)] with the set of characters given as a predicate. *)
Fixpoint lstrip_by (drop : ascii -> bool) (s : string) : string :=
  match s with
  | EmptyString => EmptyString
  | String c r => if drop c then lstrip_by drop r else s
  end.

(** [s.rstrip(chars)]. *)
Fixpoint rstrip_by (drop : ascii -> bool) (s : string) : string :=
  match s with
  | EmptyString => EmptyString
  | String c r =>
      match rstrip_by drop r with
      | EmptyString => if drop c then EmptyString else String c EmptyString
      | r' => String c r'
      end
  end.

(** [s.strip()] *)
Definition strip (s : string) : string :=
  rstrip_by isspace (lstrip_by isspace s).

(** [s.replace(" ", "")] *)
Definition remove_spaces (s : string) : string :=
  filter (fun c => negb (is_char " " c)) s.

Definition upper_char (c : ascii) : ascii :=
  let n := nat_of_ascii c in
  if ((97 <=? n)%nat && (n <=? 122)%nat)%bool
  then ascii_of_nat (n - 32) else c.

Definition lower_char (c : ascii) : ascii :=
  let n := nat_of_ascii c in
  if ((65 <=? n)%nat && (n <=? 90)%nat)%bool
  then ascii_of_nat (n + 32) else c.

Definition upper : string -> string := map upper_char.
Definition lower : string -> string := map lower_char.

(** [s.split()]: maximal runs of non-whitespace characters.  [cur] is
    the word being read, kept in reverse. *)
Fixpoint rev_onto (acc : string) (s : string) : string :=
  match s with
  | EmptyString => acc
  | String c r => rev_onto (String c acc) r
  end.

Definition flush (cur : string) (words : list string) : list string :=
  match cur with
  | EmptyString => words
  | _ => rev_onto EmptyString cur :: words
  end.

Fixpoint split_go (cur : string) (s : string) : list string :=
  match s with
  | EmptyString => flush cur []
  | String c r =>
      if isspace c then flush cur (split_go EmptyString r)
      else split_go (String c cur) r
  end.

Definition split (s : string) : list string := split_go EmptyString s.

(** [sep.join(words)] *)
Fixpoint join (sep : string) (words : list string) : string :=
  match words with
  | [] => EmptyString
  | [w] => w
  | w :: ws => w ++ sep ++ join sep ws
  end.

(** [s.startswith(p)], returning what follows the prefix. *)
Fixpoint strip_prefix (p s : string) : option string :=
  match p, s with
  | EmptyString, _ => Some s
  | String a p', String b s' =>
      if Ascii.eqb a b then strip_prefix p' s' else None
  | String _ _, EmptyString => None
  end.

Definition nonempty (s : string) : bool :=
  match s with EmptyString => false | _ => true end.

End PyStr.

(** ** binary64 arithmetic on ratios of integers *)

Module Float.

(** A finite binary64 number, as [mantissa * 2^exponent].  Overflow and
    subnormal numbers are out of the range of what is divided here. *)
Record double := mk_double {
  mantissa : Z;
  exponent : Z
}.

(** [num / den] rounded to the nearest integer, ties to the even one
    ([0 <= num], [0 < den]) *)
Definition round_half_even (num den : Z) : Z :=
  let q := num / den in
  let r := num mod den in
  if 2 * r <? den then q
  else if den <? 2 * r then q + 1
  else if Z.even q then q else q + 1.

(** [floor (log2 (num / den))] for positive [num] and [den] *)
Definition floor_log2_ratio (num den : Z) : Z :=
  let l := Z.log2 num - Z.log2 den in
  if (if 0 <=? l then den * 2 ^ l <=? num else den <=? num * 2 ^ (- l))
  then l else l - 1.

(** [n / d] for two [int]s with [0 < d]: the correctly rounded
    quotient, with 53 significant bits *)
Definition true_divide (n d : Z) : double :=
  if n =? 0 then mk_double 0 0
  else
    let a := Z.abs n in
    let e := floor_log2_ratio a d - 52 in
    let m :=
      if 0 <=? e then round_half_even a (d * 2 ^ e)
      else round_half_even (a * 2 ^ (- e)) d in
    mk_double (Z.sgn n * m) e.

(** [int(x // n)] for a float [x] and an [int] [0 < n] (the floor of
    the quotient; exact while [x] is below 2^53 in size) *)
Definition floor_divide (x : double) (n : Z) : Z :=
  if 0 <=? exponent x then (mantissa x * 2 ^ exponent x) / n
  else mantissa x / (n * 2 ^ (- exponent x)).

End Float.

(** ** datetime *)

Module Datetime.

(** microseconds since 0001-01-01T00:00:00, no time zone *)
Definition datetime := Z.
(** microseconds *)
Definition timedelta := Z.
(** microseconds since midnight *)
Definition time := Z.

Definition MICROS_PER_SECOND : Z := 1000000.
Definition MICROS_PER_DAY : Z := 86400 * MICROS_PER_SECOND.

(** [datetime.time(h, m, s)] *)
Definition mk_time (h m s : Z) : time := ((h * 60 + m) * 60 + s) * MICROS_PER_SECOND.

(** [a - b] on two datetimes *)
Definition sub (a b : datetime) : timedelta := a - b.

(** [d.time()] *)
Definition time_of (d : datetime) : time := d mod MICROS_PER_DAY.

(** [td.total_seconds()] *)
Definition total_seconds (td : timedelta) : Float.double :=
  Float.true_divide td MICROS_PER_SECOND.

(** [int(td.total_seconds() // n)] for a positive integer [n] *)
Definition total_seconds_floordiv (td : timedelta) (n : Z) : Z :=
  Float.floor_divide (total_seconds td) n.

(** [d + datetime.timedelta(minutes=m)] *)
Definition add_minutes (d : datetime) (m : Z) : datetime :=
  d + m * 60 * MICROS_PER_SECOND.

End Datetime.

(** ** app/utils.py: the duration formatter *)

Module Utils.
Import PyStr.

(** ['s' if n != 1 else ''] *)
Definition plural (n : Z) : string :=
  if n =? 1 then EmptyString else "s".

Definition convert (minutes : Z) : string :=
  let hours := minutes / 60 in
  let mins := minutes mod 60 in
  if hours =? 0 then
    str_of_int mins ++ " minute" ++ plural mins
  else if mins =? 0 then
    str_of_int hours ++ " hour" ++ plural hours
  else
    str_of_int hours ++ " hour" ++ plural hours ++ " "
      ++ str_of_int mins ++ " minute" ++ plural mins.

End Utils.

(** ** app/main.py: the fee engine *)

Module Fee.
Import Datetime.

Definition FREE_PARKING_MINUTES : Z := 30.
Definition FIRST_HOUR_COST : Z := 50.
Definition ADDITIONAL_HOUR_COST : Z := 50.

Definition DAY_START : time := mk_time 6 0 0.
Definition DAY_END : time := mk_time 22 0 0.

(** [math.ceil(n / 60.0)] for an integer [n] *)
Definition ceil_div (n d : Z) : Z := - ((- n) / d).

(** the legacy flat-rate formula *)
Definition calculate_parking_cost (duration_minutes : Z) : Z :=
  if duration_minutes <=? FREE_PARKING_MINUTES then 0
  else if duration_minutes <=? 120 then FIRST_HOUR_COST
  else
    let extra_hours := (duration_minutes - 120 + 59) / 60 in
    FIRST_HOUR_COST + extra_hours * ADDITIONAL_HOUR_COST.

(** the first statement of [compute_parking_fee] *)
Definition duration_minutes (entry_dt exit_dt : datetime) : Z :=
  if exit_dt <? entry_dt
  then total_seconds_floordiv (sub entry_dt exit_dt) 60
  else total_seconds_floordiv (sub exit_dt entry_dt) 60.

(** [DAY_START <= entry_time < DAY_END] *)
Definition is_day_entry (entry_dt : datetime) : bool :=
  let entry_time := time_of entry_dt in
  (DAY_START <=? entry_time) && (entry_time <? DAY_END).

Definition compute_parking_fee (entry_dt exit_dt : datetime) : Z :=
  let duration_minutes := duration_minutes entry_dt exit_dt in
  if is_day_entry entry_dt then
    if duration_minutes <=? 30 then 0
    else if duration_minutes <=? 120 then FIRST_HOUR_COST
    else
      let extra_minutes := duration_minutes - 120 in
      let extra_hours := ceil_div extra_minutes 60 in
      FIRST_HOUR_COST + extra_hours * ADDITIONAL_HOUR_COST
  else
    if duration_minutes <=? 60 then FIRST_HOUR_COST
    else
      let extra_minutes := duration_minutes - 60 in
      let extra_hours := ceil_div extra_minutes 60 in
      FIRST_HOUR_COST + extra_hours * ADDITIONAL_HOUR_COST.

End Fee.

(** ** The two transaction stores *)

Module Store.
Import Datetime.

(** One row of [transactions], with the four columns the program
    reads or writes. *)
Record transaction := mk_transaction {
  id : Z;
  vehicle_number : string;
  time_in : datetime;
  mobile_number : option string
}.

Definition table := list transaction.

(** [SELECT TOP 1 ... WHERE vehicle_number = ? ORDER BY time_in DESC]:
    a row of the plate with the greatest [time_in] (the first such row
    of the table when several tie; SQL leaves that choice open). *)
Fixpoint latest (carno : string) (rows : table) : option transaction :=
  match rows with
  | [] => None
  | r :: rs =>
      if String.eqb (vehicle_number r) carno then
        match latest carno rs with
        | Some r' => if time_in r <? time_in r' then Some r' else Some r
        | None => Some r
        end
      else latest carno rs
  end.

Definition with_mobile (phone : string) (r : transaction) : transaction :=
  mk_transaction (id r) (vehicle_number r) (time_in r) (Some phone).

(** [UPDATE transactions SET mobile_number = ? WHERE id = ?] *)
Definition set_mobile (phone : string) (carid : Z) (rows : table) : table :=
  List.map (fun r => if id r =? carid then with_mobile phone r else r) rows.

(** [SELECT TOP 1 id FROM transactions WHERE vehicle_number = ?]
    followed by [fetchone() is not None] *)
Definition has_plate (carno : string) (rows : table) : bool :=
  existsb (fun r => String.eqb (vehicle_number r) carno) rows.

(** The default database and the SyfeParking (RNG) database. *)
Record stores := mk_stores {
  ridgeways : table;
  syfe : table
}.

End Store.

(** ** The environment of one request *)

Module Env.

(** The places where the outside can fail a handler.  First the
    [with get_cursor(..)] blocks of the program, by the function that
    opens them: such a block fails when connecting, a statement or the
    commit raises.  The block of [receivetext] also pushes the payment
    and sends the WhatsApp template before it commits, so for it the
    commit and the Infobip request are told apart: [In_receivetext] is
    the connection and the statements, which come before the push. *)
Inductive session :=
| In_is_rng_vehicle
| In_link_phone_to_vehicle
| In_get_vehicle_transaction
| In_rng_check_parking_fee_due
| In_receivetext
| In_twilio_ivr
| At_commit_of_receivetext
| At_infobip_request.

(** What [requests.post(...)] followed by [res.json()] gives. *)
Inductive http_reply :=
| Json_object (code : option Z)   (* a JSON object; its integer "code" entry, if any *)
| Json_other                      (* any other JSON value *)
| Request_exception
| Value_error.

Record env := mk_env {
  (** whether the block, or the step named, raises *)
  session_raises : session -> bool;
  (** the push-payment endpoint, by [carno] and [phone] of the payload *)
  pushpayment : string -> string -> http_reply;
  (** [dbo.Transactions.CheckParkingFeeDue] of SyfeParking; [None] for
      no row or NULL *)
  CheckParkingFeeDue : string -> option Z
}.

(** What the program does to the outside, in order. *)
Inductive event :=
| Call_is_rng_vehicle (carno : string)
| Call_link_phone_to_vehicle (carno phone : string)
| Call_trigger_mpesa_push (carno phone : string)
| Call_get_vehicle_transaction (carno : string)
| Call_rng_check_parking_fee_due (car_number : string)
| Send_whatsapp_template (to pay_phone carno : string)
| Log_error (message : string).

Definition is_push (ev : event) : bool :=
  match ev with Call_trigger_mpesa_push _ _ => true | _ => false end.

Definition is_link (ev : event) : bool :=
  match ev with
  | Call_link_phone_to_vehicle _ _ => true
  | Log_error m =>
      match PyStr.strip_prefix "Failed to link phone to vehicle " m with
      | Some _ => true
      | None => false
      end
  | _ => false
  end.

End Env.

(** ** app/main.py: helpers over the stores *)

Module Main.
Import PyStr Datetime Store Env.
Export Fee.

Definition LF : string := String (ascii_of_nat 10) EmptyString.

(** *** Compiled patterns

    [re.compile("^" + lit + "$").match(text)]: [$] also matches just
    before a final line feed. *)
Definition match_exact (lit text : string) : bool :=
  String.eqb text lit || String.eqb text (lit ++ LF).

Definition not_star_hash (c : ascii) : bool :=
  negb (is_char "*" c) && negb (is_char "#" c).

(** [re.compile("^" + lit + "([^\*#]+)$").match(text)] and its
    [group(1)]; the class also accepts a line feed, so the greedy
    group always runs to the end of [text]. *)
Definition match_capture (lit text : string) : option string :=
  match strip_prefix lit text with
  | Some rest =>
      if nonempty rest && PyStr.forallb not_star_hash rest
      then Some rest else None
  | None => None
  end.

Definition PATTERN_INITIAL := match_exact "98".
Definition PATTERN_PAY_MENU := match_exact "98*1".
Definition PATTERN_PAY_INPUT := match_capture "98*1*".
Definition PATTERN_AMOUNT_MENU := match_exact "98*2".
Definition PATTERN_AMOUNT_INPUT := match_capture "98*2*".
Definition PATTERN_TIME_MENU := match_exact "98*3".
Definition PATTERN_TIME_INPUT := match_capture "98*3*".
Definition PATTERN_TERMS := match_exact "98*4".
Definition PATTERN_RNG_MENU := match_exact "98*9".
Definition PATTERN_RNG_AMOUNT_MENU := match_exact "98*9*2".
Definition PATTERN_RNG_AMOUNT_INPUT := match_capture "98*9*2*".

(** *** Store helpers; each returns its value and what it did *)

Definition link_phone_to_vehicle (e : env) (carno phone : string)
    (rows : table) : table * list event :=
  if session_raises e In_link_phone_to_vehicle then
    (rows, [Call_link_phone_to_vehicle carno phone;
            Log_error ("Failed to link phone to vehicle " ++ carno)])
  else
    match latest carno rows with
    | Some row =>
        (set_mobile phone (id row) rows, [Call_link_phone_to_vehicle carno phone])
    | None => (rows, [Call_link_phone_to_vehicle carno phone])
    end.

Definition get_vehicle_transaction (e : env) (carno : string)
    (rows : table) : option (Z * datetime) * list event :=
  if session_raises e In_get_vehicle_transaction then
    (None, [Call_get_vehicle_transaction carno;
            Log_error ("Failed to get transaction for " ++ carno)])
  else
    (option_map (fun r => (id r, time_in r)) (latest carno rows),
     [Call_get_vehicle_transaction carno]).

Definition is_rng_vehicle (e : env) (carno : string)
    (rows : table) : bool * list event :=
  if session_raises e In_is_rng_vehicle then
    (false, [Call_is_rng_vehicle carno;
             Log_error ("Failed to check RNG ownership for " ++ carno)])
  else
    (has_plate carno rows, [Call_is_rng_vehicle carno]).

(** [None] when the session raises: this helper has no handler of
    its own. *)
Definition rng_check_parking_fee_due (e : env) (car_number : string)
    : option Z * list event :=
  let carno := upper (strip car_number) in
  if session_raises e In_rng_check_parking_fee_due then
    (None, [Call_rng_check_parking_fee_due car_number])
  else
    (Some (match CheckParkingFeeDue e carno with Some n => n | None => 0 end),
     [Call_rng_check_parking_fee_due car_number]).

(** *** app/utils.py: the payment initiator *)

(** The value [trigger_mpesa_push] returns, seen through
    [result.get("code")]. *)
Inductive push_result :=
| Dict (code : option Z)
| Not_a_dict.

Definition trigger_mpesa_push (e : env) (carno phone : string)
    : push_result * list event :=
  match pushpayment e (remove_spaces carno) phone with
  | Json_object code => (Dict code, [Call_trigger_mpesa_push carno phone])
  | Json_other => (Not_a_dict, [Call_trigger_mpesa_push carno phone])
  | Request_exception =>
      (Dict (Some 500), [Call_trigger_mpesa_push carno phone;
                         Log_error ("M-Pesa push failed for " ++ carno)])
  | Value_error =>
      (Dict (Some 500), [Call_trigger_mpesa_push carno phone;
                         Log_error "Failed to parse M-Pesa response"])
  end.

(** [result.get("code") == 200] *)
Definition code_is_200 (code : option Z) : bool :=
  match code with Some c => c =? 200 | None => false end.

(** *** 1. The USSD endpoint *)

(** The request as the handler reads it: the first non-empty of the
    query parameters INPUT, TEXT, text, input; the same for the
    form-encoded body; the first non-empty of MSISDN, msisdn, From. *)
Record request := mk_request {
  query_text : string;
  body_text : string;
  msisdn : string
}.

Record outcome := mk_outcome {
  response : string;
  stores_after : stores;
  trace : list event
}.

(** [text] after normalisation *)
Definition ussd_text (req : request) : string :=
  let text := strip (query_text req) in
  let text := if nonempty text then text else body_text req in
  strip (rstrip_by (is_char "#") (remove_spaces text)).

Definition ussd_phone (req : request) : string :=
  lstrip_by (is_char "+") (msisdn req).

(** [group(1).upper().replace(" ", "")] *)
Definition plate_of (group1 : string) : string :=
  remove_spaces (upper group1).

(** The branch of the [if]/[elif] chain that [text] selects, with the
    captured group where the pattern has one. *)
Inductive branch :=
| At_INITIAL
| At_PAY_MENU
| At_PAY_INPUT (group1 : string)
| At_AMOUNT_MENU
| At_AMOUNT_INPUT (group1 : string)
| At_TIME_MENU
| At_TIME_INPUT (group1 : string)
| At_TERMS
| At_else.

Definition ussd_branch (text : string) : branch :=
  if PATTERN_INITIAL text then At_INITIAL
  else if PATTERN_PAY_MENU text then At_PAY_MENU
  else match PATTERN_PAY_INPUT text with
  | Some g => At_PAY_INPUT g
  | None =>
  if PATTERN_AMOUNT_MENU text then At_AMOUNT_MENU
  else match PATTERN_AMOUNT_INPUT text with
  | Some g => At_AMOUNT_INPUT g
  | None =>
  if PATTERN_TIME_MENU text then At_TIME_MENU
  else match PATTERN_TIME_INPUT text with
  | Some g => At_TIME_INPUT g
  | None =>
  if PATTERN_TERMS text then At_TERMS
  else At_else
  end end end.

Definition WELCOME : string :=
  "CON Welcome to SyfePark USSD!" ++ LF ++
  "By paying with USSD you agree with below terms" ++ LF ++
  "1. Pay for Parking" ++ LF ++ "2. Check Amount Due" ++ LF ++
  "3. Check Time Stayed" ++ LF ++ "4. Terms & Conditions" ++ LF ++
  "Note: Vehicles managed by RNG (external) only support Amount checks via option 2.".
Definition ENTER_PLATE : string := "CON Enter your Plate Number".
Definition RNG_NO_PAYMENT : string :=
  "END This vehicle is managed by RNG. Payments must be made via RNG services.".
Definition RNG_NO_TIME : string :=
  "END Time checks are not available for RNG-managed vehicles. Please contact RNG.".
Definition PUSH_SENT : string :=
  "END Thank You for using Ridgeway's parking. You will receive an M-Pesa prompt shortly.".
Definition NOT_FOUND : string := "END Vehicle not found!".
Definition TRY_AGAIN : string := "END An error occurred. Please try again.".
Definition TERMS : string :=
  "END Ridgeways Mall Terms & Conditions..." ++ LF ++ "(Your data is safe, etc.)".
Definition INVALID : string := "END Invalid code entered".

Definition pay_input (e : env) (now_dt : datetime) (phone carno : string)
    (st : stores) : outcome :=
  let '(rng, tr1) := is_rng_vehicle e carno (syfe st) in
  if rng then mk_outcome RNG_NO_PAYMENT st tr1
  else
    let '(rows, tr2) := link_phone_to_vehicle e carno phone (ridgeways st) in
    let st' := mk_stores rows (syfe st) in
    let '(result, tr3) := trigger_mpesa_push e carno phone in
    match result with
    | Not_a_dict =>
        (* [result.get] raises; the handler's outer [except] answers *)
        mk_outcome TRY_AGAIN st'
          (tr1 ++ tr2 ++ tr3 ++ [Log_error ("USSD error for " ++ phone)])%list
    | Dict code =>
        if code_is_200 code then mk_outcome PUSH_SENT st' (tr1 ++ tr2 ++ tr3)%list
        else
          let '(transaction, tr4) := get_vehicle_transaction e carno rows in
          match transaction with
          | Some (_, entry) =>
              let duration := total_seconds_floordiv (sub now_dt entry) 60 in
              let remaining := Z.max 0 (FREE_PARKING_MINUTES - duration) in
              mk_outcome
                ("END You are within free " ++ str_of_int FREE_PARKING_MINUTES
                 ++ " mins. " ++ str_of_int remaining ++ " mins left to exit free.")
                st' (tr1 ++ tr2 ++ tr3 ++ tr4)%list
          | None => mk_outcome NOT_FOUND st' (tr1 ++ tr2 ++ tr3 ++ tr4)%list
          end
    end.

Definition amount_input (e : env) (now_dt : datetime) (phone carno : string)
    (st : stores) : outcome :=
  let '(rng, tr1) := is_rng_vehicle e carno (syfe st) in
  if rng then
    let '(amount, tr2) := rng_check_parking_fee_due e carno in
    match amount with
    | None =>
        mk_outcome TRY_AGAIN st
          (tr1 ++ tr2 ++ [Log_error ("RNG amount lookup failed for " ++ carno)])%list
    | Some amount =>
        mk_outcome
          (if amount =? 0
           then "END No charge for " ++ carno ++ ". Within free time."
           else "END Your amount due for " ++ carno ++ " is KES " ++ str_of_int amount)
          st (tr1 ++ tr2)%list
    end
  else
    let '(rows, tr2) := link_phone_to_vehicle e carno phone (ridgeways st) in
    let st' := mk_stores rows (syfe st) in
    let '(transaction, tr3) := get_vehicle_transaction e carno rows in
    match transaction with
    | None => mk_outcome NOT_FOUND st' (tr1 ++ tr2 ++ tr3)%list
    | Some (_, entry_dt) =>
        let cost := compute_parking_fee entry_dt now_dt in
        mk_outcome
          (if cost =? 0 then "END No charge. Within free time."
           else "END Amount due: KES " ++ str_of_int cost)
          st' (tr1 ++ tr2 ++ tr3)%list
    end.

Definition time_input (e : env) (now_dt : datetime) (carno : string)
    (st : stores) : outcome :=
  let '(rng, tr1) := is_rng_vehicle e carno (syfe st) in
  if rng then mk_outcome RNG_NO_TIME st tr1
  else
    let '(transaction, tr2) := get_vehicle_transaction e carno (ridgeways st) in
    match transaction with
    | Some (_, entry) =>
        let duration := total_seconds_floordiv (sub now_dt entry) 60 in
        mk_outcome ("END Stayed for: " ++ Utils.convert duration) st (tr1 ++ tr2)%list
    | None => mk_outcome NOT_FOUND st (tr1 ++ tr2)%list
    end.

Definition ussd (e : env) (now_dt : datetime) (req : request)
    (st : stores) : outcome :=
  let text := ussd_text req in
  let phone := ussd_phone req in
  match ussd_branch text with
  | At_INITIAL => mk_outcome WELCOME st []
  | At_PAY_MENU => mk_outcome ENTER_PLATE st []
  | At_PAY_INPUT g => pay_input e now_dt phone (plate_of g) st
  | At_AMOUNT_MENU => mk_outcome ENTER_PLATE st []
  | At_AMOUNT_INPUT g => amount_input e now_dt phone (plate_of g) st
  | At_TIME_MENU => mk_outcome ENTER_PLATE st []
  | At_TIME_INPUT g => time_input e now_dt (plate_of g) st
  | At_TERMS => mk_outcome TERMS st []
  | At_else => mk_outcome INVALID st []
  end.

(** *** 2. The WhatsApp webhook *)

Record message := mk_message {
  text : string;     (* msg["message"]["text"] *)
  from : string      (* msg["from"] *)
}.

Record command := mk_command {
  cmd : string;
  carno_raw : string;
  pay_phone : string
}.

(** The head of the loop body, up to the command test; [None] is the
    [continue] taken on fewer than two words. *)
Definition parse_message (m : message) : option command :=
  let body := strip (text m) in
  let phone := from m in
  let parts := split (lower body) in
  if (List.length parts <? 2)%nat then None
  else
    let cmd := nth 0 parts EmptyString in
    let carno_raw := remove_spaces (upper (join " " (tl parts))) in
    let pay_phone :=
      if String.eqb cmd "pay" && (3 <=? List.length parts)%nat
      then nth 2 parts EmptyString else phone in
    Some (mk_command cmd carno_raw pay_phone).

Definition is_command (cmd : string) : bool :=
  existsb (String.eqb cmd) ["time"; "amount"; "pay"].

(** One turn of the loop.  [raised] tells that an exception left the
    [with] block: the session is rolled back and the handler ends.
    What was pushed or sent before stays pushed and sent. *)
Record turn := mk_turn {
  raised : bool;
  rows_after : table;
  turn_trace : list event
}.

(** The end of the [with] block of one message: [conn.commit()], which
    makes the update of [rows] to [rows'] last, or raises. *)
Definition commit_turn (e : env) (rows rows' : table) (tr : list event) : turn :=
  if session_raises e At_commit_of_receivetext then mk_turn true rows tr
  else mk_turn false rows' tr.

Definition handle_message (e : env) (m : message) (rows : table) : turn :=
  match parse_message m with
  | None => mk_turn false rows []
  | Some c =>
      if is_command (cmd c) then
        if session_raises e In_receivetext then mk_turn true rows []
        else
          match latest (carno_raw c) rows with
          | Some row =>
              let rows' := set_mobile (pay_phone c) (id row) rows in
              if String.eqb (cmd c) "pay" then
                let '(result, tr) :=
                  trigger_mpesa_push e (carno_raw c) (pay_phone c) in
                match result with
                | Not_a_dict => mk_turn true rows tr
                | Dict code =>
                    if code_is_200 code then
                      let tr' :=
                        (tr ++ [Send_whatsapp_template (from m) (pay_phone c)
                                  (carno_raw c)])%list in
                      if session_raises e At_infobip_request
                      then mk_turn true rows tr'
                      else commit_turn e rows rows' tr'
                    else commit_turn e rows rows' tr
                end
              else commit_turn e rows rows' []
          | None => commit_turn e rows rows []
          end
      else mk_turn false rows []
  end.

Fixpoint receivetext (e : env) (messages : list message) (rows : table)
    : turn :=
  match messages with
  | [] => mk_turn false rows []
  | m :: ms =>
      let t := handle_message e m rows in
      if raised t then t
      else
        let t' := receivetext e ms (rows_after t) in
        mk_turn (raised t') (rows_after t') (turn_trace t ++ turn_trace t')%list
  end.

(** *** 3. The IVR endpoint *)

Inductive twiml :=
| Say (words : string)
| Gather (prompts : list string)
| Hangup.

Record ivr_request := mk_ivr_request {
  form_From : string;
  form_Digits : option string
}.

Definition linked_to (from_number : string) (r : transaction) : bool :=
  match mobile_number r with
  | Some p => String.eqb p from_number
  | None => false
  end.

(** [MIN(id)] over the rows of one plate *)
Fixpoint min_id (plate : string) (rows : table) : Z :=
  match rows with
  | [] => 0
  | r :: rs =>
      if String.eqb (vehicle_number r) plate then
        if has_plate plate rs then Z.min (id r) (min_id plate rs) else id r
      else min_id plate rs
  end.

Fixpoint insert_desc (x : Z * string) (l : list (Z * string))
    : list (Z * string) :=
  match l with
  | [] => [x]
  | y :: ys => if fst y <? fst x then x :: l else y :: insert_desc x ys
  end.

(** [SELECT vehicle_number ... WHERE mobile_number = ? GROUP BY
    vehicle_number ORDER BY MIN(id) DESC] *)
Definition get_vehicles (from_number : string) (rows : table) : list string :=
  let mine := List.filter (linked_to from_number) rows in
  let plates := nodup string_dec (List.map vehicle_number mine) in
  List.map snd
    (fold_right insert_desc [] (List.map (fun p => (min_id p mine, p)) plates)).

Definition is_digit (c : ascii) : bool :=
  let n := nat_of_ascii c in (48 <=? n)%nat && (n <=? 57)%nat.

(** The digits of an [int(..)] literal: decimal digits, single
    underscores allowed between two digits. *)
Fixpoint digits_value (acc : Z) (after_digit : bool) (s : string) : option Z :=
  match s with
  | EmptyString => if after_digit then Some acc else None
  | String c r =>
      if is_digit c
      then digits_value (10 * acc + Z.of_nat (nat_of_ascii c - 48)) true r
      else if is_char "_" c && after_digit then digits_value acc false r
      else None
  end.

(** the white space [int(..)] skips around a literal: TAB, LF, VT, FF, CR
    and SPACE (not FS, GS, RS, US, which [str.strip] also removes) *)
Definition int_space (c : ascii) : bool :=
  let n := nat_of_ascii c in
  ((9 <=? n)%nat && (n <=? 13)%nat) || (n =? 32)%nat.

(** [int(s)] for an ASCII [str]; [None] is [ValueError]. *)
Definition py_int (s : string) : option Z :=
  match rstrip_by int_space (lstrip_by int_space s) with
  | String "-" r => option_map Z.opp (digits_value 0 false r)
  | String "+" r => digits_value 0 false r
  | r => digits_value 0 false r
  end.

Fixpoint prompts_from (i : Z) (vehicles : list string) : list string :=
  match vehicles with
  | [] => []
  | car :: rest =>
      ("For " ++ car ++ ", press " ++ str_of_int i ++ ".")
        :: prompts_from (i + 1) rest
  end.

(** The reply ([None] when an exception leaves the handler) and the
    trace. *)
Definition twilio_ivr (e : env) (req : ivr_request) (rows : table)
    : option (list twiml) * list event :=
  let from_number := lstrip_by (is_char "+") (form_From req) in
  let no_digits :=
    match form_Digits req with
    | None => true
    | Some d => negb (nonempty d)
    end in
  if session_raises e In_twilio_ivr then (None, [])
  else
    let vehicles := get_vehicles from_number rows in
    if no_digits then
      match vehicles with
      | [] =>
          (Some [Say "No vehicles linked to your number. Use USSD to pay. Goodbye.";
                 Hangup], [])
      | _ =>
          (Some [Gather
                   ("Welcome to Ridgeways Parking Payment. Select your vehicle."
                      :: prompts_from 1 (firstn 9 vehicles))], [])
      end
    else
      match py_int (match form_Digits req with Some d => d | None => EmptyString end) with
      | None => (Some [Say "Invalid input."; Hangup], [])
      | Some choice =>
          if (1 <=? choice) && (choice <=? Z.of_nat (List.length vehicles)) then
            let carno :=
              remove_spaces (nth (Z.to_nat (choice - 1)) vehicles EmptyString) in
            let '(result, tr) := trigger_mpesa_push e carno from_number in
            match result with
            | Not_a_dict =>
                (* the bare [except] of the handler *)
                (Some [Say "Invalid input."; Hangup], tr)
            | Dict code =>
                if code_is_200 code then
                  (Some [Say ("Payment request sent for " ++ carno
                              ++ ". Check your phone for M-Pesa prompt. Thank you!");
                         Hangup], tr)
                else
                  (Some [Say "You are within free parking time. No payment needed.";
                         Hangup], tr)
            end
          else (Some [Say "Invalid selection."; Hangup], [])
      end.

End Main.

(** ** Specification-side definitions and fixtures *)

Module Spec.
Import PyStr.

(** The duration formatter in the words of the specification: each
    unit is rendered with its own plural, a zero-valued unit is left
    out, and a zero total is rendered in minutes. *)
Definition render_unit (u : Z * string) : string :=
  str_of_int (fst u) ++ " " ++ snd u
    ++ (if fst u =? 1 then EmptyString else "s").

Definition humanize (n : Z) : string :=
  let units := [(n / 60, "hour"); (n mod 60, "minute")] in
  match List.filter (fun u => negb (fst u =? 0)) units with
  | [] => render_unit (0, "minute")
  | shown => join " " (List.map render_unit shown)
  end.

End Spec.

Module Fixtures.
Import Datetime Store Env Main.

(** [h:m:00] on day number [day] of the time line *)
Definition at_clock (day h m : Z) : datetime :=
  day * MICROS_PER_DAY + mk_time h m 0.

Definition noon : datetime := at_clock 100 12 0.

(** 0001-01-01T00:00:00, the first [datetime] there is *)
Definition year_one : datetime := at_clock 0 0 0.

(** 2026-11-04T13:00:59.999999, day 739923 of the time line: one
    microsecond short of a whole minute, and more than 2^53
    microseconds after [year_one] *)
Definition far_date : datetime := at_clock 739923 13 0 + 59999999.

(** One parked vehicle, as the default store and as the SyfeParking
    store would hold it. *)
Definition row_a : transaction :=
  mk_transaction 1 "KCA123X" (at_clock 100 9 45) None.
Definition row_b : transaction :=
  mk_transaction 7 "KCA123X" (at_clock 90 8 0) None.

Definition only_a : stores := mk_stores [row_a] [].
Definition only_b : stores := mk_stores [] [row_b].
Definition both : stores := mk_stores [row_a] [row_b].

Definition caller : string := "+254700000001".

(** [row_a] once the caller's phone has been linked to it *)
Definition row_a_linked : transaction :=
  mk_transaction 1 "KCA123X" (at_clock 100 9 45) (Some "254700000001").

(** the plate of the examples in the docstring of [receivetext] *)
Definition row_doc : transaction :=
  mk_transaction 3 "KCA123A" (at_clock 100 10 30) None.

Definition dial (typed : string) : request :=
  mk_request typed EmptyString caller.

Definition raises_only (s : session) : session -> bool :=
  fun s' =>
    match s, s' with
    | In_is_rng_vehicle, In_is_rng_vehicle
    | In_link_phone_to_vehicle, In_link_phone_to_vehicle
    | In_get_vehicle_transaction, In_get_vehicle_transaction
    | In_rng_check_parking_fee_due, In_rng_check_parking_fee_due
    | In_receivetext, In_receivetext
    | In_twilio_ivr, In_twilio_ivr
    | At_commit_of_receivetext, At_commit_of_receivetext
    | At_infobip_request, At_infobip_request => true
    | _, _ => false
    end.

(** Every session commits; the push endpoint answers with [code]. *)
Definition env_up (code : Z) : env :=
  mk_env (fun _ => false) (fun _ _ => Json_object (Some code)) (fun _ => Some 100).

(** As [env_up], but the session named [s] raises. *)
Definition env_down (s : session) (code : Z) : env :=
  mk_env (raises_only s) (fun _ _ => Json_object (Some code)) (fun _ => Some 100).

End Fixtures.

(** Trace observations used in the statements. *)

Module Observe.
Import Env.

(** the calls of the payment initiator, in order *)
Definition pushes (tr : list event) : list event := List.filter is_push tr.

(** the calls that read or write Operator A's side: the phone link,
    the transaction lookup and the payment push *)
Definition is_operator_a (ev : event) : bool :=
  match ev with
  | Call_link_phone_to_vehicle _ _
  | Call_get_vehicle_transaction _
  | Call_trigger_mpesa_push _ _ => true
  | _ => false
  end.

Definition operator_a_calls (tr : list event) : list event :=
  List.filter is_operator_a tr.

(** the trace without what [link_phone_to_vehicle] contributes *)
Definition without_link (tr : list event) : list event :=
  List.filter (fun ev => negb (is_link ev)) tr.

(** Two environments that differ at most in whether the session of
    [link_phone_to_vehicle] raises. *)
Definition same_but_link (e e' : env) : Prop :=
  pushpayment e = pushpayment e'
  /\ CheckParkingFeeDue e = CheckParkingFeeDue e'
  /\ forall s, s <> In_link_phone_to_vehicle ->
               session_raises e s = session_raises e' s.

End Observe.

(** ** app/database.py: the cursor context manager *)

Module Database.

(** [DATABASES[db]]; [None] is the [KeyError] of an unknown name. *)
Definition DATABASES (db : string) : option string :=
  if String.eqb db "Ridgeways" then Some "Ridgeways"
  else if String.eqb db "SyfeParking" then Some "SyfeParking"
  else None.

(** How a step of one [with get_cursor(db)] block ends: it returns, it
    raises an [Exception], or it raises something else
    ([KeyboardInterrupt], [SystemExit]), which [except Exception] does
    not catch. *)
Inductive step :=
| Done
| Raises_exception
| Raises_other.

(** The steps of a block: the three driver calls and the body, and
    whether [conn.close()] returns. *)
Record run := mk_run {
  connect : step;
  cursor : step;
  body : step;
  commit : step;
  close_ok : bool
}.

(** The calls made, in order. *)
Inductive call :=
| Connect (database : string)
| Cursor
| Body
| Commit
| Rollback
| Close.

(** what the [except Exception] clause adds for a connection that is
    open: a rollback for an [Exception], nothing otherwise *)
Definition on_raise (how : step) : list call :=
  match how with
  | Raises_exception => [Rollback]
  | _ => []
  end.

(** Whether an exception leaves the [with] block, and the calls made.
    [conn] is set once [pyodbc.connect] has returned; the [except]
    clause rolls back and re-raises (a rollback that fails raises in
    its place); the [finally] clause closes. *)
Definition get_cursor (db : string) (r : run) : bool * list call :=
  match DATABASES db with
  | None => (true, [])
  | Some db_name =>
      match connect r with
      | Done =>
          match cursor r with
          | Done =>
              match body r with
              | Done =>
                  match commit r with
                  | Done =>
                      (negb (close_ok r),
                       [Connect db_name; Cursor; Body; Commit; Close])
                  | how =>
                      (true,
                       [Connect db_name; Cursor; Body; Commit]
                         ++ on_raise how ++ [Close])%list
                  end
              | how =>
                  (true, [Connect db_name; Cursor; Body] ++ on_raise how ++ [Close])%list
              end
          | how => (true, [Connect db_name; Cursor] ++ on_raise how ++ [Close])%list
          end
      | _ => (true, [Connect db_name])
      end
  end.

End Database.

(** Shapes of texts, tables and replies used in the further
    properties. *)

Module Shape.
Import PyStr Store Env Main.

Definition is_lower (c : ascii) : bool :=
  let n := nat_of_ascii c in (97 <=? n)%nat && (n <=? 122)%nat.

Definition not_space (c : ascii) : bool := negb (is_char " " c).

(** a character a plate handed to the stores may contain: anything but
    a space and a lower-case letter *)
Definition plate_char (c : ascii) : bool := not_space c && negb (is_lower c).

(** the columns of a row that no handler writes *)
Definition fixed_columns (r : transaction) : Z * string * Datetime.datetime :=
  (id r, vehicle_number r, time_in r).

(** [s.startswith(p)] *)
Definition starts_with (p s : string) : bool :=
  match strip_prefix p s with Some _ => true | None => false end.

(** the branches that capture a plate *)
Definition captured (b : branch) : option string :=
  match b with
  | At_PAY_INPUT g | At_AMOUNT_INPUT g | At_TIME_INPUT g => Some g
  | _ => None
  end.

(** the order [insert_desc] keeps: keys from greatest to smallest *)
Definition by_key_desc (a b : Z * string) : Prop := fst b <= fst a.

End Shape.

(** Case split on every threshold test [a <=? b] of the goal, turning
    each outcome into the inequality it stands for. *)
Ltac threshold a b :=
  let H := fresh "Hcmp" in
  destruct (a <=? b) eqn:H; [apply Z.leb_le in H | apply Z.leb_gt in H].

Ltac fee_cases :=
  repeat match goal with |- context [?a <=? ?b] => threshold a b end.

(** Case split over the results of the helpers a branch calls. *)
Ltac split_calls :=
  repeat match goal with
    | |- context [Main.link_phone_to_vehicle ?e ?c ?p ?r] =>
        destruct (Main.link_phone_to_vehicle e c p r) as [? ?]
    | |- context [Main.trigger_mpesa_push ?e ?c ?p] =>
        destruct (Main.trigger_mpesa_push e c p) as [[?|] ?]
    | |- context [Main.get_vehicle_transaction ?e ?c ?r] =>
        destruct (Main.get_vehicle_transaction e c r) as [[[? ?]|] ?]
    | |- context [Main.rng_check_parking_fee_due ?e ?c] =>
        destruct (Main.rng_check_parking_fee_due e c) as [[?|] ?]
    | |- context [Main.code_is_200 ?c] => destruct (Main.code_is_200 c)
    end.

(** Unfolding of the branch bodies down to the environment, and the
    case split over everything the environment decides. *)
Ltac open_helpers :=
  unfold Main.pay_input, Main.amount_input, Main.time_input,
    Main.is_rng_vehicle, Main.link_phone_to_vehicle, Main.trigger_mpesa_push,
    Main.get_vehicle_transaction, Main.rng_check_parking_fee_due.

Ltac split_env :=
  repeat match goal with
    | |- context [Env.session_raises ?e ?s] =>
        destruct (Env.session_raises e s) eqn:?
    | |- context [Store.has_plate ?c ?r] => destruct (Store.has_plate c r) eqn:?
    | |- context [Env.pushpayment ?e ?c ?p] =>
        destruct (Env.pushpayment e c p) eqn:?
    | |- context [Main.code_is_200 ?c] => destruct (Main.code_is_200 c) eqn:?
    | |- context [Store.latest ?c ?r] => destruct (Store.latest c r) eqn:?
    | |- context [Env.CheckParkingFeeDue ?e ?c] =>
        destruct (Env.CheckParkingFeeDue e c) eqn:?
    | |- context [Z.eqb ?a 0] => destruct (Z.eqb a 0) eqn:?
    end.

(** * Properties *)

(** ** The fee engine *)

Section FeeEngine.
Import Datetime Fee.

Lemma ceil_div_60_bounds (n : Z) :
  60 * (ceil_div n 60 - 1) < n <= 60 * ceil_div n 60.
Proof.
  unfold ceil_div.
  pose proof (Z.div_mod (- n) 60 ltac:(lia)) as E.
  pose proof (Z.mod_pos_bound (- n) 60 ltac:(lia)) as B.
  lia.
Qed.

Lemma ceil_div_60_unique (n k : Z) :
  60 * (k - 1) < n <= 60 * k -> ceil_div n 60 = k.
Proof.
  intros H. pose proof (ceil_div_60_bounds n). lia.
Qed.

Lemma legacy_round_up (n : Z) : (n + 59) / 60 = ceil_div n 60.
Proof.
  symmetry. apply ceil_div_60_unique.
  pose proof (Z.div_mod (n + 59) 60 ltac:(lia)) as E.
  pose proof (Z.mod_pos_bound (n + 59) 60 ltac:(lia)) as B.
  lia.
Qed.

(** *** The duration, with the rounding of [total_seconds()] *)

Lemma round_half_even_lower (num den c : Z) :
  0 < den -> c * den <= num -> c <= Float.round_half_even num den.
Proof.
  intros Hden Hc. unfold Float.round_half_even. cbv zeta.
  assert (Hq : c <= num / den) by (apply Z.div_le_lower_bound; lia).
  destruct (2 * (num mod den) <? den); [exact Hq |].
  destruct (den <? 2 * (num mod den)); [lia |].
  destruct (Z.even (num / den)); lia.
Qed.

Lemma round_half_even_upper (num den : Z) :
  0 < den -> 2 * (den * Float.round_half_even num den - num) <= den.
Proof.
  intros Hden. unfold Float.round_half_even. cbv zeta.
  pose proof (Z.div_mod num den ltac:(lia)) as E.
  pose proof (Z.mod_pos_bound num den Hden) as B.
  destruct (Z.ltb_spec (2 * (num mod den)) den); [lia |].
  destruct (Z.ltb_spec den (2 * (num mod den))); [lia |].
  destruct (Z.even (num / den)); lia.
Qed.

Lemma floor_log2_ratio_upper (num den : Z) :
  Float.floor_log2_ratio num den <= Z.log2 num - Z.log2 den.
Proof.
  unfold Float.floor_log2_ratio. cbv zeta.
  destruct (if 0 <=? Z.log2 num - Z.log2 den
            then den * 2 ^ (Z.log2 num - Z.log2 den) <=? num
            else den <=? num * 2 ^ (- (Z.log2 num - Z.log2 den))); lia.
Qed.

Lemma total_seconds_floordiv_zero (n : Z) : total_seconds_floordiv 0 n = 0.
Proof. unfold total_seconds_floordiv, Float.floor_divide. simpl. apply Zdiv_0_l. Qed.

Lemma total_seconds_floordiv_nonneg (td n : Z) :
  0 <= td -> 0 < n -> 0 <= total_seconds_floordiv td n.
Proof.
  intros Htd Hn.
  unfold total_seconds_floordiv, total_seconds, Float.true_divide, Float.floor_divide.
  destruct (Z.eqb_spec td 0) as [-> | Hnz].
  { simpl. rewrite Zdiv_0_l. lia. }
  cbv zeta.
  set (e := Float.floor_log2_ratio (Z.abs td) MICROS_PER_SECOND - 52).
  cbn [Float.mantissa Float.exponent].
  rewrite (Z.sgn_pos td) by lia. rewrite Z.mul_1_l. rewrite Z.abs_eq by lia.
  destruct (Z.leb_spec 0 e) as [He | He].
  - assert (Hp : 0 < 2 ^ e) by (apply Z.pow_pos_nonneg; lia).
    assert (Hm : 0 <= Float.round_half_even td (MICROS_PER_SECOND * 2 ^ e)).
    { apply round_half_even_lower; [unfold MICROS_PER_SECOND; lia | lia]. }
    apply Z.div_pos; [| exact Hn]. apply Z.mul_nonneg_nonneg; lia.
  - assert (Hp : 0 < 2 ^ (- e)) by (apply Z.pow_pos_nonneg; lia).
    assert (Hm : 0 <= Float.round_half_even (td * 2 ^ (- e)) MICROS_PER_SECOND).
    { apply round_half_even_lower; [reflexivity |].
      simpl. apply Z.mul_nonneg_nonneg; lia. }
    apply Z.div_pos; [exact Hm |]. apply Z.mul_pos_pos; lia.
Qed.

(** Below 2^53 microseconds the rounding of [total_seconds()] never
    reaches the next whole minute: the count is the exact floor. *)
Lemma total_seconds_floordiv_exact (td : Z) :
  0 <= td < 2 ^ 53 ->
  total_seconds_floordiv td 60 = td / (60 * MICROS_PER_SECOND).
Proof.
  intros [Hlo Hhi].
  destruct (Z.eqb_spec td 0) as [-> | Hnz]; [apply total_seconds_floordiv_zero |].
  unfold total_seconds_floordiv, total_seconds, Float.true_divide, Float.floor_divide.
  rewrite (proj2 (Z.eqb_neq td 0) Hnz). cbv zeta.
  set (e := Float.floor_log2_ratio (Z.abs td) MICROS_PER_SECOND - 52).
  cbn [Float.mantissa Float.exponent].
  rewrite (Z.sgn_pos td) by lia. rewrite Z.mul_1_l. rewrite Z.abs_eq in * by lia.
  assert (He : e <= -19).
  { subst e. pose proof (floor_log2_ratio_upper (Z.abs td) MICROS_PER_SECOND) as Hu.
    rewrite Z.abs_eq in Hu by lia.
    assert (Hl : Z.log2 td < 53) by (apply Z.log2_lt_pow2; lia).
    change (Z.log2 MICROS_PER_SECOND) with 19 in Hu. rewrite Z.abs_eq by lia. lia. }
  rewrite (proj2 (Z.leb_gt 0 e)) by lia.
  set (P := 2 ^ (- e)).
  assert (HP : 2 ^ 19 <= P) by (apply Z.pow_le_mono_r; lia).
  change (2 ^ 19) with 524288 in HP.
  set (m := Float.round_half_even (td * P) MICROS_PER_SECOND).
  set (k := td / (60 * MICROS_PER_SECOND)).
  pose proof (Z.div_mod td (60 * MICROS_PER_SECOND) ltac:(discriminate)) as Hdiv.
  pose proof (Z.mod_pos_bound td (60 * MICROS_PER_SECOND) ltac:(reflexivity)) as Hmod.
  fold k in Hdiv. unfold MICROS_PER_SECOND in *.
  assert (Hk1 : 60000000 * k <= td) by lia.
  assert (Hk2 : td <= 60000000 * (k + 1) - 1) by lia.
  assert (Hlow : 60 * P * k <= m).
  { apply round_half_even_lower; [reflexivity |].
    assert (60000000 * k * P <= td * P) by (apply Z.mul_le_mono_nonneg_r; lia).
    lia. }
  assert (Hup : m < 60 * P * (k + 1)).
  { pose proof (round_half_even_upper (td * P) 1000000 ltac:(reflexivity)) as Hr.
    fold m in Hr.
    assert (td * P <= (60000000 * (k + 1) - 1) * P)
      by (apply Z.mul_le_mono_nonneg_r; lia).
    lia. }
  assert (H60 : 0 < 60 * P) by lia.
  assert (k <= m / (60 * P)) by (apply Z.div_le_lower_bound; lia).
  assert (m / (60 * P) < k + 1) by (apply Z.div_lt_upper_bound; lia).
  lia.
Qed.

(** The duration is a function of the absolute gap alone. *)
Lemma duration_minutes_gap (entry_dt exit_dt : datetime) :
  duration_minutes entry_dt exit_dt
  = total_seconds_floordiv (Z.abs (exit_dt - entry_dt)) 60.
Proof.
  unfold duration_minutes, sub.
  destruct (Z.ltb_spec exit_dt entry_dt); f_equal; lia.
Qed.

Lemma duration_minutes_abs (entry_dt exit_dt : datetime) :
  Z.abs (exit_dt - entry_dt) < 2 ^ 53 ->
  duration_minutes entry_dt exit_dt
  = Z.abs (exit_dt - entry_dt) / (60 * MICROS_PER_SECOND).
Proof.
  intros Hgap. rewrite duration_minutes_gap.
  apply total_seconds_floordiv_exact. lia.
Qed.

Lemma duration_minutes_nonneg (entry_dt exit_dt : datetime) :
  0 <= duration_minutes entry_dt exit_dt.
Proof.
  rewrite duration_minutes_gap. apply total_seconds_floordiv_nonneg; lia.
Qed.

Lemma duration_minutes_same (entry_dt : datetime) :
  duration_minutes entry_dt entry_dt = 0.
Proof.
  rewrite duration_minutes_gap, Z.sub_diag. apply total_seconds_floordiv_zero.
Qed.

Lemma is_day_entry_iff (entry_dt : datetime) :
  is_day_entry entry_dt = true <-> DAY_START <= time_of entry_dt < DAY_END.
Proof.
  unfold is_day_entry. rewrite andb_true_iff, Z.leb_le, Z.ltb_lt. tauto.
Qed.

Lemma is_day_entry_false_iff (entry_dt : datetime) :
  is_day_entry entry_dt = false <-> ~ (DAY_START <= time_of entry_dt < DAY_END).
Proof.
  rewrite <- is_day_entry_iff. destruct (is_day_entry entry_dt); split; congruence.
Qed.

(** The fee as a function of the tariff class and the duration. *)
Lemma compute_parking_fee_day (entry_dt exit_dt : datetime) :
  is_day_entry entry_dt = true ->
  compute_parking_fee entry_dt exit_dt =
    let d := duration_minutes entry_dt exit_dt in
    if d <=? 30 then 0
    else if d <=? 120 then 50
    else 50 + ceil_div (d - 120) 60 * 50.
Proof. intros H. unfold compute_parking_fee. rewrite H. reflexivity. Qed.

Lemma compute_parking_fee_night (entry_dt exit_dt : datetime) :
  is_day_entry entry_dt = false ->
  compute_parking_fee entry_dt exit_dt =
    let d := duration_minutes entry_dt exit_dt in
    if d <=? 60 then 50
    else 50 + ceil_div (d - 60) 60 * 50.
Proof. intros H. unfold compute_parking_fee. rewrite H. reflexivity. Qed.

(** C3.  With [d] the duration in minutes that the code takes between
    the two timestamps (the whole minutes of the gap, for every gap
    below 2^53 microseconds): an entry whose time of day lies in
    [06:00:00, 22:00:00) costs 0 up to 30 minutes, 50 up to 120
    minutes, and 50 plus 50 per started hour beyond 120 minutes after
    that (so 30 gives 0, 31 gives 50, 120 gives 50 and 121 gives 100);
    any other entry costs 50 up to 60 minutes and 50 plus 50 per
    started hour beyond 60 minutes after that. *)
Theorem compute_parking_fee_tariff (entry_dt exit_dt : datetime) :
  let d := duration_minutes entry_dt exit_dt in
  let fee := compute_parking_fee entry_dt exit_dt in
  (Z.abs (exit_dt - entry_dt) < 2 ^ 53 ->
   d = Z.abs (exit_dt - entry_dt) / (60 * MICROS_PER_SECOND))
  /\ (DAY_START <= time_of entry_dt < DAY_END ->
        (d <= 30 -> fee = 0)
        /\ (30 < d <= 120 -> fee = 50)
        /\ (120 < d ->
              exists k, 60 * (k - 1) < d - 120 <= 60 * k /\ fee = 50 + k * 50)
        /\ (d = 30 -> fee = 0) /\ (d = 31 -> fee = 50)
        /\ (d = 120 -> fee = 50) /\ (d = 121 -> fee = 100))
  /\ (~ (DAY_START <= time_of entry_dt < DAY_END) ->
        (d <= 60 -> fee = 50)
        /\ (60 < d ->
              exists k, 60 * (k - 1) < d - 60 <= 60 * k /\ fee = 50 + k * 50)).
Proof.
  intros d fee. split; [apply duration_minutes_abs |]. split.
  - intros Hday. apply is_day_entry_iff in Hday.
    subst fee. rewrite (compute_parking_fee_day _ _ Hday). fold d. cbv zeta.
    assert (Hbig : 120 < d ->
              exists k, 60 * (k - 1) < d - 120 <= 60 * k
                        /\ (if d <=? 30 then 0
                            else if d <=? 120 then 50
                            else 50 + ceil_div (d - 120) 60 * 50) = 50 + k * 50).
    { intros Hd. exists (ceil_div (d - 120) 60). split.
      - apply ceil_div_60_bounds.
      - fee_cases; lia. }
    repeat split; try assumption; intros Hd; try (fee_cases; lia).
    + subst d. rewrite Hd. reflexivity.
  - intros Hnight. apply is_day_entry_false_iff in Hnight.
    subst fee. rewrite (compute_parking_fee_night _ _ Hnight). fold d. cbv zeta.
    split; intros Hd.
    + fee_cases; lia.
    + exists (ceil_div (d - 60) 60). split.
      * apply ceil_div_60_bounds.
      * fee_cases; lia.
Qed.

Lemma compute_parking_fee_tariff_witness :
  compute_parking_fee (Fixtures.at_clock 0 10 0)
    (add_minutes (Fixtures.at_clock 0 10 0) 121) = 100
  /\ compute_parking_fee (Fixtures.at_clock 0 23 0)
       (add_minutes (Fixtures.at_clock 0 23 0) 60) = 50.
Proof.
  split.
  - destruct (compute_parking_fee_tariff (Fixtures.at_clock 0 10 0)
                (add_minutes (Fixtures.at_clock 0 10 0) 121))
      as [_ [Hday _]].
    apply Hday.
    + vm_compute. split; [discriminate | reflexivity].
    + reflexivity.
  - destruct (compute_parking_fee_tariff (Fixtures.at_clock 0 23 0)
                (add_minutes (Fixtures.at_clock 0 23 0) 60))
      as [_ [_ Hnight]].
    apply Hnight.
    + vm_compute. intros [_ H]. discriminate H.
    + vm_compute. discriminate.
Defined.

(** C4 as stated fails: swapping the two timestamps also swaps which
    of them fixes the tariff.  Entry 06:10 with exit 05:50 is a day
    entry of 20 minutes; the swapped pair is a night entry. *)
Lemma swapped_pair_changes_tariff :
  Fixtures.at_clock 0 5 50 < Fixtures.at_clock 0 6 10
  /\ compute_parking_fee (Fixtures.at_clock 0 6 10) (Fixtures.at_clock 0 5 50) = 0
  /\ compute_parking_fee (Fixtures.at_clock 0 5 50) (Fixtures.at_clock 0 6 10) = 50.
Proof. split; [reflexivity | split; reflexivity]. Qed.

(** C4 as stated fails in a second way: the duration is the floor of
    the rounded [total_seconds()], and from 2^53 microseconds on the
    rounding can reach the next whole minute.  Entry
    2026-11-04T13:00:59.999999 with exit 0001-01-01T00:00:00 counts
    1065489901 minutes where the gap holds 1065489900. *)
Lemma reversed_pair_fee_and_duration :
  (Fixtures.at_clock 0 5 50 < Fixtures.at_clock 0 6 10
   /\ compute_parking_fee (Fixtures.at_clock 0 6 10) (Fixtures.at_clock 0 5 50) = 0
   /\ compute_parking_fee (Fixtures.at_clock 0 5 50) (Fixtures.at_clock 0 6 10) = 50)
  /\ (Fixtures.year_one < Fixtures.far_date
      /\ duration_minutes Fixtures.far_date Fixtures.year_one = 1065489901
      /\ Z.abs (Fixtures.year_one - Fixtures.far_date) / (60 * MICROS_PER_SECOND)
         = 1065489900).
Proof.
  split; [exact swapped_pair_changes_tariff |].
  split; [reflexivity |]. split; vm_compute; reflexivity.
Qed.

(** C4, amended.  When the exit precedes the entry, the duration is
    never negative and, for a gap below 2^53 microseconds, it is the
    whole minutes of the absolute gap; the fee equals that of the same
    entry with the exit moved the same gap after it, and equals the fee
    of the swapped pair whenever both timestamps fall in the same
    tariff window. *)
Theorem compute_parking_fee_reversed (t1 t2 : datetime) :
  t2 < t1 ->
  (Z.abs (t2 - t1) < 2 ^ 53 ->
   duration_minutes t1 t2 = Z.abs (t2 - t1) / (60 * MICROS_PER_SECOND))
  /\ 0 <= duration_minutes t1 t2
  /\ compute_parking_fee t1 t2 = compute_parking_fee t1 (t1 + (t1 - t2))
  /\ (is_day_entry t2 = is_day_entry t1 ->
      compute_parking_fee t1 t2 = compute_parking_fee t2 t1).
Proof.
  intros Hlt.
  assert (Hmirror : duration_minutes t1 t2 = duration_minutes t1 (t1 + (t1 - t2))).
  { rewrite !duration_minutes_gap. f_equal. lia. }
  assert (Hswap : duration_minutes t1 t2 = duration_minutes t2 t1).
  { rewrite !duration_minutes_gap. f_equal. lia. }
  split; [apply duration_minutes_abs |].
  split; [apply duration_minutes_nonneg |].
  split.
  - unfold compute_parking_fee. rewrite <- Hmirror. reflexivity.
  - intros Hsame. unfold compute_parking_fee.
    rewrite <- Hswap, Hsame. reflexivity.
Qed.

Lemma compute_parking_fee_reversed_witness :
  compute_parking_fee (Fixtures.at_clock 0 9 0) (Fixtures.at_clock 0 6 30)
  = compute_parking_fee (Fixtures.at_clock 0 6 30) (Fixtures.at_clock 0 9 0).
Proof.
  apply (compute_parking_fee_reversed
           (Fixtures.at_clock 0 9 0) (Fixtures.at_clock 0 6 30)).
  - reflexivity.
  - reflexivity.
Defined.

(** C5.  For an entry whose time of day lies in [06:00:00, 22:00:00)
    the fee never decreases when the duration grows, and a stay of no
    length costs nothing. *)
Theorem compute_parking_fee_day_monotone (entry_dt exit1 exit2 : datetime) :
  DAY_START <= time_of entry_dt < DAY_END ->
  duration_minutes entry_dt exit1 <= duration_minutes entry_dt exit2 ->
  compute_parking_fee entry_dt exit1 <= compute_parking_fee entry_dt exit2
  /\ compute_parking_fee entry_dt entry_dt = 0.
Proof.
  intros Hday Hle. apply is_day_entry_iff in Hday.
  rewrite !(compute_parking_fee_day _ _ Hday). cbv zeta.
  split.
  - pose proof (ceil_div_60_bounds (duration_minutes entry_dt exit1 - 120)).
    pose proof (ceil_div_60_bounds (duration_minutes entry_dt exit2 - 120)).
    fee_cases; lia.
  - rewrite duration_minutes_same. reflexivity.
Qed.

Lemma compute_parking_fee_day_monotone_witness :
  compute_parking_fee (Fixtures.at_clock 3 8 15)
    (add_minutes (Fixtures.at_clock 3 8 15) 45)
  <= compute_parking_fee (Fixtures.at_clock 3 8 15)
       (add_minutes (Fixtures.at_clock 3 8 15) 200)
  /\ compute_parking_fee (Fixtures.at_clock 3 8 15) (Fixtures.at_clock 3 8 15) = 0.
Proof.
  apply compute_parking_fee_day_monotone.
  - vm_compute. split; [discriminate | reflexivity].
  - vm_compute. discriminate.
Defined.

(** C10.  For an entry whose time of day lies in [06:00:00, 22:00:00)
    the day/night engine and the legacy flat-rate formula give the
    same amount for the same duration. *)
Theorem compute_parking_fee_day_is_legacy (entry_dt exit_dt : datetime) :
  DAY_START <= time_of entry_dt < DAY_END ->
  compute_parking_fee entry_dt exit_dt
  = calculate_parking_cost (duration_minutes entry_dt exit_dt).
Proof.
  intros Hday. apply is_day_entry_iff in Hday.
  rewrite (compute_parking_fee_day _ _ Hday). cbv zeta.
  unfold calculate_parking_cost, FREE_PARKING_MINUTES, FIRST_HOUR_COST,
    ADDITIONAL_HOUR_COST.
  rewrite legacy_round_up. reflexivity.
Qed.

Lemma compute_parking_fee_day_is_legacy_witness :
  compute_parking_fee (Fixtures.at_clock 1 21 59)
    (add_minutes (Fixtures.at_clock 1 21 59) 500)
  = calculate_parking_cost
      (duration_minutes (Fixtures.at_clock 1 21 59)
         (add_minutes (Fixtures.at_clock 1 21 59) 500)).
Proof.
  apply compute_parking_fee_day_is_legacy.
  vm_compute. split; [discriminate | reflexivity].
Defined.

End FeeEngine.

(** ** The duration formatter *)

Section Formatter.
Import PyStr Utils.

Lemma append_assoc (a b c : string) : ((a ++ b) ++ c = a ++ (b ++ c))%string.
Proof. induction a as [| x a IH]; simpl; [reflexivity | now rewrite IH]. Qed.

Lemma render_hour (h : Z) (tail : string) :
  (Spec.render_unit (h, "hour") ++ tail
   = str_of_int h ++ " hour" ++ plural h ++ tail)%string.
Proof.
  unfold Spec.render_unit, plural. simpl fst; simpl snd.
  rewrite append_assoc. reflexivity.
Qed.

Lemma render_minute (m : Z) :
  Spec.render_unit (m, "minute") = (str_of_int m ++ " minute" ++ plural m)%string.
Proof. unfold Spec.render_unit, plural. reflexivity. Qed.

(** C6.  For a non-negative count of minutes the formatter shows
    hours = n div 60 and minutes = n mod 60, each unit with its own
    plural, a zero-valued unit left out, and a zero total shown in
    minutes; 0, 1, 60 and 90 give "0 minutes", "1 minute", "1 hour"
    and "1 hour 30 minutes". *)
Theorem convert_humanize (n : Z) :
  0 <= n ->
  (0 <= n / 60 /\ 0 <= n mod 60 < 60)
  /\ convert n = Spec.humanize n
  /\ convert 0 = "0 minutes"
  /\ convert 1 = "1 minute"
  /\ convert 60 = "1 hour"
  /\ convert 90 = "1 hour 30 minutes".
Proof.
  intros Hn. split.
  { split; [apply Z.div_pos; lia | apply Z.mod_pos_bound; lia]. }
  split; [| repeat split].
  unfold convert, Spec.humanize. cbv zeta. simpl List.filter. simpl fst.
  destruct (Z.eqb_spec (n / 60) 0) as [Hh | Hh];
    destruct (Z.eqb_spec (n mod 60) 0) as [Hm | Hm]; simpl negb; cbv iota.
  - rewrite Hm. reflexivity.
  - change (join " " (List.map Spec.render_unit [(n mod 60, "minute")]))
      with (Spec.render_unit (n mod 60, "minute")).
    rewrite render_minute. reflexivity.
  - change (join " " (List.map Spec.render_unit [(n / 60, "hour")]))
      with (Spec.render_unit (n / 60, "hour")).
    unfold Spec.render_unit, plural. reflexivity.
  - change (join " " (List.map Spec.render_unit
                        [(n / 60, "hour"); (n mod 60, "minute")]))
      with (Spec.render_unit (n / 60, "hour") ++ " "
              ++ Spec.render_unit (n mod 60, "minute"))%string.
    rewrite render_hour, render_minute. reflexivity.
Qed.

Lemma convert_humanize_witness :
  convert 135 = Spec.humanize 135.
Proof.
  apply (convert_humanize 135). lia.
Defined.

End Formatter.

(** ** The USSD router *)

Section UssdRouter.
Import PyStr Datetime Store Env Main Observe.

Lemma strip_prefix_app (p s : string) : strip_prefix p (p ++ s) = Some s.
Proof.
  induction p as [| c p IH]; simpl; [reflexivity |].
  rewrite Ascii.eqb_refl. exact IH.
Qed.

Lemma strip_prefix_inv (p s r : string) :
  strip_prefix p s = Some r -> s = (p ++ r)%string.
Proof.
  revert s. induction p as [| c p IH]; intros s H; simpl in *.
  - congruence.
  - destruct s as [| d s]; [discriminate |].
    destruct (Ascii.eqb_spec c d) as [-> |]; [| discriminate].
    f_equal. apply IH, H.
Qed.

Lemma nonempty_true (s : string) : nonempty s = true <-> s <> EmptyString.
Proof. destruct s; simpl; split; congruence. Qed.

(** A capture pattern accepts exactly its literal followed by a
    non-empty run without [*] and [#], and captures that run. *)
Lemma match_capture_iff (lit text g : string) :
  match_capture lit text = Some g
  <-> text = (lit ++ g)%string /\ g <> EmptyString
      /\ PyStr.forallb not_star_hash g = true.
Proof.
  unfold match_capture. split.
  - destruct (strip_prefix lit text) as [rest |] eqn:E; [| discriminate].
    destruct (nonempty rest && PyStr.forallb not_star_hash rest) eqn:B;
      [| discriminate].
    intros [= <-]. apply andb_true_iff in B as [B1 B2].
    repeat split; [apply strip_prefix_inv, E | apply nonempty_true, B1 | exact B2].
  - intros (-> & Hne & Hok). rewrite strip_prefix_app.
    apply nonempty_true in Hne. rewrite Hne, Hok. reflexivity.
Qed.

Lemma ussd_branch_pay_input (g : string) :
  g <> EmptyString -> PyStr.forallb not_star_hash g = true ->
  ussd_branch ("98*1*" ++ g) = At_PAY_INPUT g.
Proof.
  intros Hne Hok. unfold ussd_branch.
  replace (PATTERN_INITIAL ("98*1*" ++ g)) with false by reflexivity.
  replace (PATTERN_PAY_MENU ("98*1*" ++ g)) with false by reflexivity.
  unfold PATTERN_PAY_INPUT.
  rewrite (proj2 (match_capture_iff "98*1*" _ g)); [reflexivity | auto].
Qed.

Lemma ussd_branch_amount_input (g : string) :
  g <> EmptyString -> PyStr.forallb not_star_hash g = true ->
  ussd_branch ("98*2*" ++ g) = At_AMOUNT_INPUT g.
Proof.
  intros Hne Hok. unfold ussd_branch.
  replace (PATTERN_INITIAL ("98*2*" ++ g)) with false by reflexivity.
  replace (PATTERN_PAY_MENU ("98*2*" ++ g)) with false by reflexivity.
  replace (PATTERN_PAY_INPUT ("98*2*" ++ g)) with (@None string) by reflexivity.
  replace (PATTERN_AMOUNT_MENU ("98*2*" ++ g)) with false by reflexivity.
  unfold PATTERN_AMOUNT_INPUT.
  rewrite (proj2 (match_capture_iff "98*2*" _ g)); [reflexivity | auto].
Qed.

Lemma ussd_branch_time_input (g : string) :
  g <> EmptyString -> PyStr.forallb not_star_hash g = true ->
  ussd_branch ("98*3*" ++ g) = At_TIME_INPUT g.
Proof.
  intros Hne Hok. unfold ussd_branch.
  replace (PATTERN_INITIAL ("98*3*" ++ g)) with false by reflexivity.
  replace (PATTERN_PAY_MENU ("98*3*" ++ g)) with false by reflexivity.
  replace (PATTERN_PAY_INPUT ("98*3*" ++ g)) with (@None string) by reflexivity.
  replace (PATTERN_AMOUNT_MENU ("98*3*" ++ g)) with false by reflexivity.
  replace (PATTERN_AMOUNT_INPUT ("98*3*" ++ g)) with (@None string) by reflexivity.
  replace (PATTERN_TIME_MENU ("98*3*" ++ g)) with false by reflexivity.
  unfold PATTERN_TIME_INPUT.
  rewrite (proj2 (match_capture_iff "98*3*" _ g)); [reflexivity | auto].
Qed.

Lemma has_plate_iff (carno : string) (rows : table) :
  has_plate carno rows = true
  <-> exists r, In r rows /\ vehicle_number r = carno.
Proof.
  unfold has_plate. rewrite existsb_exists.
  split; intros (r & Hin & H); exists r; split; auto; now apply String.eqb_eq.
Qed.

(** The guard answers [True] exactly when its session commits and the
    plate has a row in SyfeParking; a session that raises is
    answered as [False]. *)
Lemma is_rng_vehicle_true_iff (e : env) (carno : string) (rows : table) :
  fst (is_rng_vehicle e carno rows) = true
  <-> session_raises e In_is_rng_vehicle = false
      /\ exists r, In r rows /\ vehicle_number r = carno.
Proof.
  unfold is_rng_vehicle. rewrite <- has_plate_iff.
  destruct (session_raises e In_is_rng_vehicle); simpl.
  - split; [discriminate | intros [H _]; discriminate].
  - split; [intros H; split; [reflexivity | exact H] | intros [_ H]; exact H].
Qed.

Lemma is_rng_vehicle_trace (e : env) (carno : string) (rows : table) :
  exists rest, snd (is_rng_vehicle e carno rows) = Call_is_rng_vehicle carno :: rest
               /\ operator_a_calls rest = [] /\ pushes rest = [].
Proof.
  unfold is_rng_vehicle.
  destruct (session_raises e In_is_rng_vehicle); simpl; eexists; repeat split.
Qed.

(** C1 as stated fails when the existence query itself fails:
    [is_rng_vehicle] answers [False] on any database error, so the
    request of a plate held only by SyfeParking goes on to the
    payment initiator. *)
Lemma ussd_pay_pushes_when_rng_check_raises :
  ussd_text (Fixtures.dial "98*1*KCA123X") = "98*1*KCA123X"
  /\ has_plate "KCA123X" (syfe Fixtures.only_b) = true
  /\ response (ussd (Fixtures.env_down In_is_rng_vehicle 404) Fixtures.noon
                 (Fixtures.dial "98*1*KCA123X") Fixtures.only_b)
     <> RNG_NO_PAYMENT
  /\ pushes (trace (ussd (Fixtures.env_down In_is_rng_vehicle 404) Fixtures.noon
                      (Fixtures.dial "98*1*KCA123X") Fixtures.only_b))
     = [Call_trigger_mpesa_push "KCA123X" "254700000001"].
Proof.
  split; [reflexivity |]. split; [reflexivity |].
  split; [vm_compute; discriminate | reflexivity].
Qed.

(** C1, amended.  For every USSD request whose normalised input is
    98*1*<plate>, where the plate has a row in SyfeParking and the
    existence query on that store completes, the reply is the
    cross-operator refusal, the payment initiator is not invoked and
    no store is written. *)
Theorem ussd_pay_refused_for_rng_plate
    (e : env) (now_dt : datetime) (req : request) (st : stores)
    (plate : string) :
  ussd_text req = ("98*1*" ++ plate)%string ->
  plate <> EmptyString ->
  PyStr.forallb not_star_hash plate = true ->
  (exists r, In r (syfe st) /\ vehicle_number r = plate_of plate) ->
  session_raises e In_is_rng_vehicle = false ->
  response (ussd e now_dt req st) = RNG_NO_PAYMENT
  /\ pushes (trace (ussd e now_dt req st)) = []
  /\ stores_after (ussd e now_dt req st) = st.
Proof.
  intros Htext Hne Hok Hin Hup.
  unfold ussd. rewrite Htext, (ussd_branch_pay_input plate Hne Hok).
  unfold pay_input.
  pose proof (proj2 (is_rng_vehicle_true_iff e (plate_of plate) (syfe st))
                (conj Hup Hin)) as Hrng.
  destruct (is_rng_vehicle_trace e (plate_of plate) (syfe st))
    as (rest & Htr & _ & Hnone).
  destruct (is_rng_vehicle e (plate_of plate) (syfe st)) as [rng tr1].
  simpl in Hrng, Htr. subst rng tr1. simpl.
  repeat split. exact Hnone.
Qed.

Lemma ussd_pay_refused_for_rng_plate_witness :
  response (ussd (Fixtures.env_up 200) Fixtures.noon
              (Fixtures.dial "98*1*kca 123x#") Fixtures.only_b)
  = RNG_NO_PAYMENT
  /\ pushes (trace (ussd (Fixtures.env_up 200) Fixtures.noon
                      (Fixtures.dial "98*1*kca 123x#") Fixtures.only_b)) = []
  /\ stores_after (ussd (Fixtures.env_up 200) Fixtures.noon
                     (Fixtures.dial "98*1*kca 123x#") Fixtures.only_b)
     = Fixtures.only_b.
Proof.
  apply (ussd_pay_refused_for_rng_plate (Fixtures.env_up 200) Fixtures.noon
           (Fixtures.dial "98*1*kca 123x#") Fixtures.only_b "kca123x").
  - reflexivity.
  - discriminate.
  - reflexivity.
  - exists Fixtures.row_b. split; [left; reflexivity | reflexivity].
  - reflexivity.
Defined.

Lemma is_rng_vehicle_present (e : env) (carno : string) (rows : table) :
  session_raises e In_is_rng_vehicle = false ->
  (exists r, In r rows /\ vehicle_number r = carno) ->
  is_rng_vehicle e carno rows = (true, [Call_is_rng_vehicle carno]).
Proof.
  intros Hup Hin. unfold is_rng_vehicle. rewrite Hup.
  apply has_plate_iff in Hin. rewrite Hin. reflexivity.
Qed.

Lemma rng_check_parking_fee_due_trace (e : env) (carno : string) :
  snd (rng_check_parking_fee_due e carno)
  = [Call_rng_check_parking_fee_due carno].
Proof.
  unfold rng_check_parking_fee_due.
  destruct (session_raises e In_rng_check_parking_fee_due); reflexivity.
Qed.

(** The guard is the first thing each plate-carrying branch does. *)
Lemma ussd_guard_first
    (e : env) (now_dt : datetime) (req : request) (st : stores)
    (lit plate : string) :
  In lit ["98*1*"; "98*2*"; "98*3*"] ->
  ussd_text req = (lit ++ plate)%string ->
  plate <> EmptyString ->
  PyStr.forallb not_star_hash plate = true ->
  exists rest,
    trace (ussd e now_dt req st) = Call_is_rng_vehicle (plate_of plate) :: rest.
Proof.
  intros Hlit Htext Hne Hok. unfold ussd. rewrite Htext.
  destruct (is_rng_vehicle_trace e (plate_of plate) (syfe st))
    as (rest1 & Htr & _ & _).
  simpl in Hlit. destruct Hlit as [<- | [<- | [<- | []]]].
  - rewrite (ussd_branch_pay_input plate Hne Hok). unfold pay_input.
    destruct (is_rng_vehicle e (plate_of plate) (syfe st)) as [rng tr1].
    simpl in Htr. subst tr1.
    destruct rng; split_calls; simpl; eexists; reflexivity.
  - rewrite (ussd_branch_amount_input plate Hne Hok). unfold amount_input.
    destruct (is_rng_vehicle e (plate_of plate) (syfe st)) as [rng tr1].
    simpl in Htr. subst tr1.
    destruct rng; split_calls; simpl; eexists; reflexivity.
  - rewrite (ussd_branch_time_input plate Hne Hok). unfold time_input.
    destruct (is_rng_vehicle e (plate_of plate) (syfe st)) as [rng tr1].
    simpl in Htr. subst tr1.
    destruct rng; split_calls; simpl; eexists; reflexivity.
Qed.

(** C2, amended.  On the USSD channel each of 98*1*<plate>,
    98*2*<plate> and 98*3*<plate> queries SyfeParking for the plate
    before anything else; when that query completes and finds the
    plate, nothing of Operator A is called (no phone link, no
    transaction lookup, no payment push), no store is written,
    payment and duration requests get their refusal, and an amount
    request goes to the SyfeParking fee lookup. *)
Theorem ussd_rng_guard
    (e : env) (now_dt : datetime) (req : request) (st : stores)
    (lit plate : string) :
  In lit ["98*1*"; "98*2*"; "98*3*"] ->
  ussd_text req = (lit ++ plate)%string ->
  plate <> EmptyString ->
  PyStr.forallb not_star_hash plate = true ->
  (exists rest,
      trace (ussd e now_dt req st) = Call_is_rng_vehicle (plate_of plate) :: rest)
  /\ (session_raises e In_is_rng_vehicle = false ->
      (exists r, In r (syfe st) /\ vehicle_number r = plate_of plate) ->
      pushes (trace (ussd e now_dt req st)) = []
      /\ operator_a_calls (trace (ussd e now_dt req st)) = []
      /\ stores_after (ussd e now_dt req st) = st
      /\ (lit = "98*1*" -> response (ussd e now_dt req st) = RNG_NO_PAYMENT)
      /\ (lit = "98*3*" -> response (ussd e now_dt req st) = RNG_NO_TIME)
      /\ (lit = "98*2*" ->
          exists rest,
            trace (ussd e now_dt req st)
            = Call_is_rng_vehicle (plate_of plate)
                :: Call_rng_check_parking_fee_due (plate_of plate) :: rest)).
Proof.
  intros Hlit Htext Hne Hok.
  split; [exact (ussd_guard_first e now_dt req st lit plate Hlit Htext Hne Hok) |].
  intros Hup Hin.
  pose proof (is_rng_vehicle_present e (plate_of plate) (syfe st) Hup Hin) as Hrng.
  unfold ussd. rewrite Htext.
  simpl in Hlit. destruct Hlit as [<- | [<- | [<- | []]]].
  - rewrite (ussd_branch_pay_input plate Hne Hok). unfold pay_input.
    rewrite Hrng. simpl. repeat split; discriminate.
  - rewrite (ussd_branch_amount_input plate Hne Hok). unfold amount_input.
    rewrite Hrng.
    pose proof (rng_check_parking_fee_due_trace e (plate_of plate)) as Hfee.
    destruct (rng_check_parking_fee_due e (plate_of plate)) as [[amount |] tr2];
      simpl in Hfee; subst tr2; simpl;
      (repeat split; try discriminate; intros _; eexists; reflexivity).
  - rewrite (ussd_branch_time_input plate Hne Hok). unfold time_input.
    rewrite Hrng. simpl. repeat split; discriminate.
Qed.

Lemma ussd_rng_guard_witness :
  pushes (trace (ussd (Fixtures.env_up 200) Fixtures.noon
                   (Fixtures.dial "98*3*kca123x") Fixtures.both)) = []
  /\ response (ussd (Fixtures.env_up 200) Fixtures.noon
                 (Fixtures.dial "98*3*kca123x") Fixtures.both) = RNG_NO_TIME.
Proof.
  destruct (ussd_rng_guard (Fixtures.env_up 200) Fixtures.noon
              (Fixtures.dial "98*3*kca123x") Fixtures.both "98*3*" "kca123x")
    as [_ H].
  - right; right; left; reflexivity.
  - reflexivity.
  - discriminate.
  - reflexivity.
  - destruct H as (Hp & _ & _ & _ & Ht & _).
    + reflexivity.
    + exists Fixtures.row_b. split; [left; reflexivity | reflexivity].
    + split; [exact Hp | apply Ht; reflexivity].
Defined.

(** *** Linking the caller's phone *)

Lemma latest_none (carno : string) (rows : table) :
  latest carno rows = None ->
  forall r, In r rows -> vehicle_number r <> carno.
Proof.
  induction rows as [| r0 rs IH]; intros H r Hin; simpl in *; [destruct Hin |].
  destruct (String.eqb_spec (vehicle_number r0) carno).
  - destruct (latest carno rs) as [r' |];
      [destruct (time_in r0 <? time_in r') |]; discriminate.
  - destruct Hin as [<- | Hin]; auto.
Qed.

(** [latest] picks a row of the plate whose [time_in] no other row of
    the plate exceeds. *)
Lemma latest_sound (carno : string) (rows : table) (row : transaction) :
  latest carno rows = Some row ->
  In row rows /\ vehicle_number row = carno
  /\ forall r, In r rows -> vehicle_number r = carno -> time_in r <= time_in row.
Proof.
  revert row. induction rows as [| r0 rs IH]; intros row H; simpl in H.
  - discriminate.
  - destruct (String.eqb_spec (vehicle_number r0) carno) as [Heq | Hneq].
    + destruct (latest carno rs) as [r' |] eqn:E.
      * destruct (IH r' eq_refl) as (Hin & Hv & Hmax).
        destruct (Z.ltb_spec (time_in r0) (time_in r')) as [Hlt | Hge];
          injection H as <-.
        -- repeat split; [right; exact Hin | exact Hv |].
           intros r [<- | Hr] Hr'; [lia | auto].
        -- repeat split; [left; reflexivity | exact Heq |].
           intros r [<- | Hr] Hr'; [lia |].
           specialize (Hmax r Hr Hr'). lia.
      * injection H as <-.
        repeat split; [left; reflexivity | exact Heq |].
        intros r [<- | Hr] Hr'; [lia |].
        exfalso. exact (latest_none carno rs E r Hr Hr').
    + destruct (IH row H) as (Hin & Hv & Hmax).
      repeat split; [right; exact Hin | exact Hv |].
      intros r [<- | Hr] Hr'; [contradiction | auto].
Qed.

Lemma latest_set_mobile (phone : string) (carid : Z) (carno : string)
    (rows : table) :
  latest carno (set_mobile phone carid rows)
  = option_map (fun r => if id r =? carid then with_mobile phone r else r)
      (latest carno rows).
Proof.
  unfold set_mobile.
  set (f := fun r => if id r =? carid then with_mobile phone r else r).
  assert (Hv : forall r, vehicle_number (f r) = vehicle_number r).
  { intros r. unfold f. destruct (id r =? carid); reflexivity. }
  assert (Ht : forall r, time_in (f r) = time_in r).
  { intros r. unfold f. destruct (id r =? carid); reflexivity. }
  induction rows as [| r0 rs IH]; simpl; [reflexivity |].
  rewrite Hv, IH.
  destruct (String.eqb (vehicle_number r0) carno); [| reflexivity].
  destruct (latest carno rs) as [r' |]; simpl; [| reflexivity].
  rewrite !Ht. destruct (time_in r0 <? time_in r'); reflexivity.
Qed.

Lemma set_mobile_hits (phone : string) (row : transaction) (rows : table) :
  In row rows -> In (with_mobile phone row) (set_mobile phone (id row) rows).
Proof.
  intros Hin. unfold set_mobile.
  apply in_map_iff. exists row. rewrite Z.eqb_refl. auto.
Qed.

(** What [link_phone_to_vehicle] leaves behind: its own trace
    entries, and a table in which every plate still has the same
    latest [id] and [time_in]. *)
Lemma link_phone_to_vehicle_effect
    (e : env) (carno phone : string) (rows : table) :
  without_link (snd (link_phone_to_vehicle e carno phone rows)) = []
  /\ In (Call_link_phone_to_vehicle carno phone)
       (snd (link_phone_to_vehicle e carno phone rows))
  /\ forall e1 c,
       get_vehicle_transaction e1 c (fst (link_phone_to_vehicle e carno phone rows))
       = get_vehicle_transaction e1 c rows.
Proof.
  unfold link_phone_to_vehicle.
  destruct (session_raises e In_link_phone_to_vehicle).
  - simpl. unfold without_link. simpl.
    repeat split. left; reflexivity.
  - destruct (latest carno rows) as [row |]; simpl.
    + split; [reflexivity |]. split; [left; reflexivity |].
      intros e1 c. unfold get_vehicle_transaction.
      rewrite latest_set_mobile.
      destruct (latest c rows) as [r |]; simpl; [| reflexivity].
      destruct (id r =? id row); reflexivity.
    + split; [reflexivity |]. split; [left; reflexivity | reflexivity].
Qed.

Section SameButLink.
Variables e e' : env.
Hypothesis Hsame : same_but_link e e'.

Lemma same_is_rng_vehicle (carno : string) (rows : table) :
  is_rng_vehicle e' carno rows = is_rng_vehicle e carno rows.
Proof.
  destruct Hsame as (_ & _ & Hs). unfold is_rng_vehicle.
  rewrite (Hs In_is_rng_vehicle); [reflexivity | discriminate].
Qed.

Lemma same_get_vehicle_transaction (carno : string) (rows : table) :
  get_vehicle_transaction e' carno rows = get_vehicle_transaction e carno rows.
Proof.
  destruct Hsame as (_ & _ & Hs). unfold get_vehicle_transaction.
  rewrite (Hs In_get_vehicle_transaction); [reflexivity | discriminate].
Qed.

Lemma same_rng_check_parking_fee_due (carno : string) :
  rng_check_parking_fee_due e' carno = rng_check_parking_fee_due e carno.
Proof.
  destruct Hsame as (_ & Hf & Hs). unfold rng_check_parking_fee_due.
  rewrite (Hs In_rng_check_parking_fee_due), Hf; [reflexivity | discriminate].
Qed.

Lemma same_trigger_mpesa_push (carno phone : string) :
  trigger_mpesa_push e' carno phone = trigger_mpesa_push e carno phone.
Proof.
  destruct Hsame as (Hp & _ & _). unfold trigger_mpesa_push.
  rewrite Hp. reflexivity.
Qed.

Lemma pay_input_link_irrelevant
    (now_dt : datetime) (phone carno : string) (st : stores) :
  response (pay_input e' now_dt phone carno st)
  = response (pay_input e now_dt phone carno st)
  /\ without_link (trace (pay_input e' now_dt phone carno st))
     = without_link (trace (pay_input e now_dt phone carno st)).
Proof.
  unfold pay_input. rewrite same_is_rng_vehicle.
  destruct (is_rng_vehicle e carno (syfe st)) as [rng tr1].
  destruct rng; [split; reflexivity |].
  destruct (link_phone_to_vehicle_effect e carno phone (ridgeways st))
    as (Hw & _ & Hg).
  destruct (link_phone_to_vehicle_effect e' carno phone (ridgeways st))
    as (Hw' & _ & Hg').
  destruct (link_phone_to_vehicle e carno phone (ridgeways st)) as [rows tr2].
  destruct (link_phone_to_vehicle e' carno phone (ridgeways st)) as [rows' tr2'].
  simpl in Hw, Hw', Hg, Hg'. unfold without_link in *.
  rewrite same_trigger_mpesa_push.
  destruct (trigger_mpesa_push e carno phone) as [[code |] tr3].
  - destruct (code_is_200 code).
    + simpl. rewrite !filter_app, Hw, Hw'. split; reflexivity.
    + rewrite same_get_vehicle_transaction, Hg', <- (Hg e carno).
      destruct (get_vehicle_transaction e carno rows) as [[[i t] |] tr4];
        simpl; rewrite !filter_app, Hw, Hw'; split; reflexivity.
  - simpl. rewrite !filter_app, Hw, Hw'. split; reflexivity.
Qed.

Lemma amount_input_link_irrelevant
    (now_dt : datetime) (phone carno : string) (st : stores) :
  response (amount_input e' now_dt phone carno st)
  = response (amount_input e now_dt phone carno st)
  /\ without_link (trace (amount_input e' now_dt phone carno st))
     = without_link (trace (amount_input e now_dt phone carno st)).
Proof.
  unfold amount_input. rewrite same_is_rng_vehicle.
  destruct (is_rng_vehicle e carno (syfe st)) as [rng tr1].
  destruct rng.
  - rewrite same_rng_check_parking_fee_due. split; reflexivity.
  - destruct (link_phone_to_vehicle_effect e carno phone (ridgeways st))
      as (Hw & _ & Hg).
    destruct (link_phone_to_vehicle_effect e' carno phone (ridgeways st))
      as (Hw' & _ & Hg').
    destruct (link_phone_to_vehicle e carno phone (ridgeways st)) as [rows tr2].
    destruct (link_phone_to_vehicle e' carno phone (ridgeways st)) as [rows' tr2'].
    simpl in Hw, Hw', Hg, Hg'. unfold without_link in *.
    rewrite same_get_vehicle_transaction, Hg', <- (Hg e carno).
    destruct (get_vehicle_transaction e carno rows) as [[[i t] |] tr3];
      simpl; rewrite !filter_app, Hw, Hw'; split; reflexivity.
Qed.

End SameButLink.

Lemma pay_input_shape
    (e : env) (now_dt : datetime) (phone carno : string) (st : stores) :
  fst (is_rng_vehicle e carno (syfe st)) = false ->
  exists tr1 tr3,
    trace (pay_input e now_dt phone carno st)
    = (tr1 ++ snd (link_phone_to_vehicle e carno phone (ridgeways st)) ++ tr3)%list
    /\ stores_after (pay_input e now_dt phone carno st)
       = mk_stores (fst (link_phone_to_vehicle e carno phone (ridgeways st)))
           (syfe st).
Proof.
  intros Hrng. unfold pay_input.
  destruct (is_rng_vehicle e carno (syfe st)) as [rng tr1].
  simpl in Hrng. subst rng.
  split_calls; simpl; exists tr1; eexists; split; reflexivity.
Qed.

Lemma amount_input_shape
    (e : env) (now_dt : datetime) (phone carno : string) (st : stores) :
  fst (is_rng_vehicle e carno (syfe st)) = false ->
  exists tr1 tr3,
    trace (amount_input e now_dt phone carno st)
    = (tr1 ++ snd (link_phone_to_vehicle e carno phone (ridgeways st)) ++ tr3)%list
    /\ stores_after (amount_input e now_dt phone carno st)
       = mk_stores (fst (link_phone_to_vehicle e carno phone (ridgeways st)))
           (syfe st).
Proof.
  intros Hrng. unfold amount_input.
  destruct (is_rng_vehicle e carno (syfe st)) as [rng tr1].
  simpl in Hrng. subst rng.
  split_calls; simpl; exists tr1; eexists; split; reflexivity.
Qed.

(** C8 as stated fails for the duration request: the 98*3*<plate>
    branch never calls [link_phone_to_vehicle].  The plate is parked
    with Operator A only, every session commits, and the row still has
    no phone afterwards. *)
Lemma ussd_time_check_links_nothing :
  ussd_branch (ussd_text (Fixtures.dial "98*3*KCA123X")) = At_TIME_INPUT "KCA123X"
  /\ fst (is_rng_vehicle (Fixtures.env_up 200) "KCA123X" (syfe Fixtures.only_a))
     = false
  /\ latest "KCA123X" (ridgeways Fixtures.only_a) = Some Fixtures.row_a
  /\ response (ussd (Fixtures.env_up 200) Fixtures.noon
                 (Fixtures.dial "98*3*KCA123X") Fixtures.only_a)
     = "END Stayed for: 2 hours 15 minutes"
  /\ List.filter is_link
       (trace (ussd (Fixtures.env_up 200) Fixtures.noon
                 (Fixtures.dial "98*3*KCA123X") Fixtures.only_a)) = []
  /\ List.map mobile_number
       (ridgeways (stores_after (ussd (Fixtures.env_up 200) Fixtures.noon
                                   (Fixtures.dial "98*3*KCA123X") Fixtures.only_a)))
     = [None].
Proof. repeat (split; [reflexivity |]). reflexivity. Qed.

(** C8, amended.  On 98*1*<plate> and 98*2*<plate>, for a plate the
    SyfeParking guard does not claim, the router calls
    [link_phone_to_vehicle] with the caller's phone.  When its session
    commits, the row with the latest [time_in] of the plate (and any
    row sharing its [id]) gets that phone.  When its session raises,
    no store changes and the failure is logged.  Either way the reply
    and everything else the request does are the same. *)
Theorem ussd_links_phone_best_effort
    (e : env) (now_dt : datetime) (req : request) (st : stores)
    (lit plate : string) :
  In lit ["98*1*"; "98*2*"] ->
  ussd_text req = (lit ++ plate)%string ->
  plate <> EmptyString ->
  PyStr.forallb not_star_hash plate = true ->
  fst (is_rng_vehicle e (plate_of plate) (syfe st)) = false ->
  let carno := plate_of plate in
  let phone := ussd_phone req in
  let out := ussd e now_dt req st in
  In (Call_link_phone_to_vehicle carno phone) (trace out)
  /\ (session_raises e In_link_phone_to_vehicle = false ->
      forall row, latest carno (ridgeways st) = Some row ->
        (In row (ridgeways st) /\ vehicle_number row = carno
         /\ forall r, In r (ridgeways st) -> vehicle_number r = carno ->
                      time_in r <= time_in row)
        /\ ridgeways (stores_after out) = set_mobile phone (id row) (ridgeways st)
        /\ In (with_mobile phone row) (ridgeways (stores_after out)))
  /\ (session_raises e In_link_phone_to_vehicle = true ->
      stores_after out = st
      /\ In (Log_error ("Failed to link phone to vehicle " ++ carno)) (trace out))
  /\ (forall e', same_but_link e e' ->
      response (ussd e' now_dt req st) = response out
      /\ without_link (trace (ussd e' now_dt req st)) = without_link (trace out)).
Proof.
  intros Hlit Htext Hne Hok Hrng carno phone out.
  assert (Hshape : exists tr1 tr3,
            trace out
            = (tr1 ++ snd (link_phone_to_vehicle e carno phone (ridgeways st))
                 ++ tr3)%list
            /\ stores_after out
               = mk_stores (fst (link_phone_to_vehicle e carno phone (ridgeways st)))
                   (syfe st)).
  { subst out. unfold ussd. rewrite Htext.
    simpl in Hlit. destruct Hlit as [<- | [<- | []]].
    - rewrite (ussd_branch_pay_input plate Hne Hok).
      apply pay_input_shape, Hrng.
    - rewrite (ussd_branch_amount_input plate Hne Hok).
      apply amount_input_shape, Hrng. }
  destruct Hshape as (tr1 & tr3 & Htr & Hst).
  split.
  { rewrite Htr. apply in_or_app; right. apply in_or_app; left.
    apply link_phone_to_vehicle_effect. }
  split.
  { intros Hup row Hrow. rewrite Hst.
    unfold link_phone_to_vehicle. rewrite Hup, Hrow. simpl.
    pose proof (latest_sound carno (ridgeways st) row Hrow) as Hl.
    split; [exact Hl |]. split; [reflexivity |].
    apply set_mobile_hits, Hl. }
  split.
  { intros Hdown. rewrite Hst, Htr.
    unfold link_phone_to_vehicle. rewrite Hdown. simpl. split.
    - destruct st; reflexivity.
    - apply in_or_app; right. right; left; reflexivity. }
  intros e' Hs. subst out. unfold ussd. rewrite Htext.
  simpl in Hlit. destruct Hlit as [<- | [<- | []]].
  - rewrite (ussd_branch_pay_input plate Hne Hok).
    apply pay_input_link_irrelevant, Hs.
  - rewrite (ussd_branch_amount_input plate Hne Hok).
    apply amount_input_link_irrelevant, Hs.
Qed.

Lemma ussd_links_phone_best_effort_witness :
  In (Call_link_phone_to_vehicle "KCA123X" "254700000001")
    (trace (ussd (Fixtures.env_up 404) Fixtures.noon
              (Fixtures.dial "98*2*kca123x") Fixtures.only_a))
  /\ response (ussd (Fixtures.env_down In_link_phone_to_vehicle 404) Fixtures.noon
                 (Fixtures.dial "98*2*kca123x") Fixtures.only_a)
     = response (ussd (Fixtures.env_up 404) Fixtures.noon
                   (Fixtures.dial "98*2*kca123x") Fixtures.only_a).
Proof.
  destruct (ussd_links_phone_best_effort (Fixtures.env_up 404) Fixtures.noon
              (Fixtures.dial "98*2*kca123x") Fixtures.only_a "98*2*" "kca123x")
    as (Hcall & _ & _ & Hsame).
  - right; left; reflexivity.
  - reflexivity.
  - discriminate.
  - reflexivity.
  - reflexivity.
  - split; [exact Hcall |].
    apply (Hsame (Fixtures.env_down In_link_phone_to_vehicle 404)).
    split; [reflexivity |]. split; [reflexivity |].
    intros s Hs. destruct s; try reflexivity. contradiction Hs; reflexivity.
Defined.

End UssdRouter.

(** ** Routing of the documented inputs *)

Section Routing.
Import PyStr Datetime Store Env Main Observe.

(** The three documented inputs that the handler does route. *)
Lemma ussd_documented_routes :
  ussd_branch (ussd_text (Fixtures.dial "98")) = At_INITIAL
  /\ ussd_branch (ussd_text (Fixtures.dial "98*1*kca 123x#")) = At_PAY_INPUT "kca123x"
  /\ plate_of "kca123x" = "KCA123X"
  /\ ussd_branch (ussd_text (Fixtures.dial "98*5")) = At_else.
Proof. repeat (split; [reflexivity |]). reflexivity. Qed.

Lemma ussd_pay_input_reaches_push :
  pushes (trace (ussd (Fixtures.env_up 200) Fixtures.noon
                   (Fixtures.dial "98*1*kca 123x#") Fixtures.only_a))
  = [Call_trigger_mpesa_push "KCA123X" "254700000001"].
Proof. reflexivity. Qed.

(** C7.  98*9*2*kca123x is accepted by [PATTERN_RNG_AMOUNT_INPUT], but
    the handler never consults that pattern: the input falls to the
    final [else], the reply is the invalid-code message and no fee
    lookup of either operator is made. *)
Theorem ussd_rng_amount_path_unrouted
    (e : env) (now_dt : datetime) (st : stores) :
  ussd_text (Fixtures.dial "98*9*2*kca123x") = "98*9*2*kca123x"
  /\ PATTERN_RNG_AMOUNT_INPUT "98*9*2*kca123x" = Some "kca123x"
  /\ ussd_branch "98*9*2*kca123x" = At_else
  /\ response (ussd e now_dt (Fixtures.dial "98*9*2*kca123x") st) = INVALID
  /\ trace (ussd e now_dt (Fixtures.dial "98*9*2*kca123x") st) = [].
Proof. repeat (split; [reflexivity |]). reflexivity. Qed.

End Routing.

(** ** The WhatsApp and IVR handlers *)

Section OtherChannels.
Import PyStr Datetime Store Env Main Observe.

(** A message of fewer than two words has no effect at all. *)
Lemma handle_message_short (e : env) (m : message) (rows : table) :
  (List.length (split (lower (strip (text m)))) < 2)%nat ->
  handle_message e m rows = mk_turn false rows [].
Proof.
  intros Hshort. unfold handle_message, parse_message.
  apply Nat.ltb_lt in Hshort. rewrite Hshort. reflexivity.
Qed.

(** With two words the second one, upper-cased, is the plate and the
    sender is the destination of a push. *)
Lemma parse_message_two_words (sender : string) :
  parse_message (mk_message "Pay kca123a" sender)
  = Some (mk_command "pay" "KCA123A" sender)
  /\ parse_message (mk_message "TIME kca123a" sender)
     = Some (mk_command "time" "KCA123A" sender).
Proof. split; reflexivity. Qed.

(** C9.  For "pay KCA123A 254712345678" the third word becomes the
    destination phone and also stays in the plate, which is then
    "KCA123A254712345678": the row of KCA123A is not found, nothing is
    linked and no push is sent. *)
Theorem whatsapp_pay_third_word_stays_in_plate (sender : string) :
  parse_message (mk_message "pay KCA123A 254712345678" sender)
  = Some (mk_command "pay" "KCA123A254712345678" "254712345678")
  /\ latest "KCA123A" [Fixtures.row_doc] = Some Fixtures.row_doc
  /\ handle_message (Fixtures.env_up 200)
       (mk_message "pay KCA123A 254712345678" sender) [Fixtures.row_doc]
     = mk_turn false [Fixtures.row_doc] [].
Proof. repeat (split; [reflexivity |]). reflexivity. Qed.

(** C2 as stated fails outside USSD and when the guard's query fails.
    KCA123X has a row in both stores.  The WhatsApp command and the
    IVR selection reach the payment initiator without any query of
    SyfeParking, and so does 98*1*KCA123X when the session of
    [is_rng_vehicle] raises. *)
Lemma push_for_rng_plate_outside_guard :
  has_plate "KCA123X" (syfe Fixtures.both) = true
  /\ pushes (turn_trace
               (receivetext (Fixtures.env_up 200)
                  [mk_message "pay KCA123X" Fixtures.caller]
                  (ridgeways Fixtures.both)))
     = [Call_trigger_mpesa_push "KCA123X" "+254700000001"]
  /\ pushes (snd (twilio_ivr (Fixtures.env_up 200)
                    (mk_ivr_request Fixtures.caller (Some "1"))
                    [Fixtures.row_a_linked]))
     = [Call_trigger_mpesa_push "KCA123X" "254700000001"]
  /\ pushes (trace (ussd (Fixtures.env_down In_is_rng_vehicle 200) Fixtures.noon
                      (Fixtures.dial "98*1*KCA123X") Fixtures.both))
     = [Call_trigger_mpesa_push "KCA123X" "254700000001"].
Proof. repeat (split; [reflexivity |]). reflexivity. Qed.

End OtherChannels.


(** * Further properties of the code *)

(** ** The fee engine, beyond the tariff table *)

Section FeeEngineMore.
Import Datetime Fee.

Lemma ceil_div_60_step (n : Z) : ceil_div (n + 60) 60 = ceil_div n 60 + 1.
Proof.
  apply ceil_div_60_unique. pose proof (ceil_div_60_bounds n). lia.
Qed.

Lemma ceil_div_60_mono (n m : Z) : n <= m -> ceil_div n 60 <= ceil_div m 60.
Proof.
  intros H. pose proof (ceil_div_60_bounds n). pose proof (ceil_div_60_bounds m).
  lia.
Qed.

Lemma time_of_shift_days (t k : Z) : time_of (t + k * MICROS_PER_DAY) = time_of t.
Proof. unfold time_of. apply Z.mod_add. discriminate. Qed.

Lemma duration_minutes_shift (entry_dt exit_dt s : Z) :
  duration_minutes (entry_dt + s) (exit_dt + s) = duration_minutes entry_dt exit_dt.
Proof. rewrite !duration_minutes_gap. f_equal. f_equal. lia. Qed.

Lemma duration_minutes_add_hour (entry_dt exit_dt : datetime) :
  entry_dt <= exit_dt ->
  add_minutes exit_dt 60 - entry_dt < 2 ^ 53 ->
  duration_minutes entry_dt (add_minutes exit_dt 60)
  = duration_minutes entry_dt exit_dt + 60.
Proof.
  intros Hle Hgap.
  rewrite !duration_minutes_abs
    by (unfold add_minutes, MICROS_PER_SECOND in *; lia).
  unfold add_minutes.
  rewrite !Z.abs_eq by (unfold MICROS_PER_SECOND; lia).
  replace (exit_dt + 60 * 60 * MICROS_PER_SECOND - entry_dt)
    with (exit_dt - entry_dt + 60 * (60 * MICROS_PER_SECOND)) by ring.
  apply Z.div_add. discriminate.
Qed.

(** X1.  The fee is a non-negative multiple of 50, and it is zero
    exactly for a day entry of at most 30 minutes: a night entry is
    never free. *)
Theorem compute_parking_fee_zero_iff (entry_dt exit_dt : datetime) :
  (exists k, 0 <= k /\ compute_parking_fee entry_dt exit_dt = 50 * k)
  /\ (compute_parking_fee entry_dt exit_dt = 0
      <-> (DAY_START <= time_of entry_dt < DAY_END)
          /\ duration_minutes entry_dt exit_dt <= 30).
Proof.
  rewrite <- is_day_entry_iff.
  pose proof (duration_minutes_nonneg entry_dt exit_dt) as Hd.
  destruct (is_day_entry entry_dt) eqn:Hday.
  - rewrite (compute_parking_fee_day _ _ Hday). cbv zeta.
    pose proof (ceil_div_60_bounds (duration_minutes entry_dt exit_dt - 120)).
    split.
    + fee_cases.
      * exists 0. lia.
      * exists 1. lia.
      * exists (1 + ceil_div (duration_minutes entry_dt exit_dt - 120) 60). lia.
    + fee_cases; split; intros; try (split; [reflexivity | lia]); lia.
  - rewrite (compute_parking_fee_night _ _ Hday). cbv zeta.
    pose proof (ceil_div_60_bounds (duration_minutes entry_dt exit_dt - 60)).
    split.
    + fee_cases.
      * exists 1. lia.
      * exists (1 + ceil_div (duration_minutes entry_dt exit_dt - 60) 60). lia.
    + fee_cases; split; intros H'; try lia; destruct H'; discriminate.
Qed.

(** X2.  For an entry outside [06:00:00, 22:00:00) the fee is at least
    50 and never decreases when the duration grows. *)
Theorem compute_parking_fee_night_monotone (entry_dt exit1 exit2 : datetime) :
  ~ (DAY_START <= time_of entry_dt < DAY_END) ->
  duration_minutes entry_dt exit1 <= duration_minutes entry_dt exit2 ->
  50 <= compute_parking_fee entry_dt exit1 <= compute_parking_fee entry_dt exit2.
Proof.
  intros Hnight Hle. apply is_day_entry_false_iff in Hnight.
  rewrite !(compute_parking_fee_night _ _ Hnight). cbv zeta.
  pose proof (ceil_div_60_bounds (duration_minutes entry_dt exit1 - 60)).
  pose proof (ceil_div_60_bounds (duration_minutes entry_dt exit2 - 60)).
  fee_cases; lia.
Qed.

Lemma compute_parking_fee_night_monotone_witness :
  50 <= compute_parking_fee (Fixtures.at_clock 0 23 0)
          (add_minutes (Fixtures.at_clock 0 23 0) 61)
     <= compute_parking_fee (Fixtures.at_clock 0 23 0)
          (add_minutes (Fixtures.at_clock 0 23 0) 180).
Proof.
  apply compute_parking_fee_night_monotone.
  - vm_compute. intros [_ H]. discriminate H.
  - vm_compute. discriminate.
Defined.

(** X3.  The fee does not depend on the date: moving both timestamps by
    the same whole number of days leaves it unchanged. *)
Theorem compute_parking_fee_shift_days (entry_dt exit_dt days : Z) :
  compute_parking_fee (entry_dt + days * MICROS_PER_DAY)
    (exit_dt + days * MICROS_PER_DAY)
  = compute_parking_fee entry_dt exit_dt.
Proof.
  unfold compute_parking_fee, is_day_entry.
  rewrite duration_minutes_shift, time_of_shift_days. reflexivity.
Qed.

(** From 2^53 microseconds on the hour can count as 61 minutes: with
    entry 0001-01-01T00:00:00 and exit 2178-08-20T07:00:59.999995 the
    durations are 1145324580 and 1145324641, and the later exit costs
    100 more. *)
Lemma extra_hour_beyond_exact_range :
  duration_minutes Fixtures.year_one (Fixtures.at_clock 795364 7 0 + 59999995)
  = 1145324580
  /\ duration_minutes Fixtures.year_one
       (add_minutes (Fixtures.at_clock 795364 7 0 + 59999995) 60)
     = 1145324641
  /\ compute_parking_fee Fixtures.year_one
       (Fixtures.at_clock 795364 7 0 + 59999995) = 954437150
  /\ compute_parking_fee Fixtures.year_one
       (add_minutes (Fixtures.at_clock 795364 7 0 + 59999995) 60) = 954437250.
Proof. repeat split; vm_compute; reflexivity. Qed.

(** X4.  Once a stay is longer than 60 minutes, one more hour costs
    exactly 50 more, under either tariff, as long as the later exit is
    less than 2^53 microseconds after the entry (beyond that the
    rounding of [total_seconds()] can make the hour count as 61
    minutes). *)
Theorem compute_parking_fee_extra_hour (entry_dt exit_dt : datetime) :
  entry_dt <= exit_dt ->
  add_minutes exit_dt 60 - entry_dt < 2 ^ 53 ->
  60 < duration_minutes entry_dt exit_dt ->
  compute_parking_fee entry_dt (add_minutes exit_dt 60)
  = compute_parking_fee entry_dt exit_dt + 50.
Proof.
  intros Hle Hgap Hlong. unfold compute_parking_fee.
  rewrite (duration_minutes_add_hour _ _ Hle Hgap).
  set (d := duration_minutes entry_dt exit_dt) in *.
  replace (d + 60 - 120) with (d - 120 + 60) by ring.
  replace (d + 60 - 60) with (d - 60 + 60) by ring.
  rewrite !ceil_div_60_step.
  pose proof (ceil_div_60_bounds (d - 120 + 60)) as B.
  rewrite ceil_div_60_step in B.
  unfold FIRST_HOUR_COST, ADDITIONAL_HOUR_COST.
  destruct (is_day_entry entry_dt); fee_cases; lia.
Qed.

Lemma compute_parking_fee_extra_hour_witness :
  compute_parking_fee (Fixtures.at_clock 0 21 0)
    (add_minutes (add_minutes (Fixtures.at_clock 0 21 0) 90) 60)
  = compute_parking_fee (Fixtures.at_clock 0 21 0)
      (add_minutes (Fixtures.at_clock 0 21 0) 90) + 50.
Proof.
  apply compute_parking_fee_extra_hour.
  - vm_compute. discriminate.
  - reflexivity.
  - reflexivity.
Defined.

(** X5.  For the same duration a night entry never costs less than a
    day entry, and at most 50 more. *)
Theorem compute_parking_fee_night_vs_day (day_entry day_exit night_entry night_exit : datetime) :
  DAY_START <= time_of day_entry < DAY_END ->
  ~ (DAY_START <= time_of night_entry < DAY_END) ->
  duration_minutes day_entry day_exit = duration_minutes night_entry night_exit ->
  compute_parking_fee day_entry day_exit
  <= compute_parking_fee night_entry night_exit
  <= compute_parking_fee day_entry day_exit + 50.
Proof.
  intros Hday Hnight Hsame.
  apply is_day_entry_iff in Hday. apply is_day_entry_false_iff in Hnight.
  rewrite (compute_parking_fee_day _ _ Hday), (compute_parking_fee_night _ _ Hnight).
  cbv zeta. rewrite Hsame.
  set (d := duration_minutes night_entry night_exit).
  pose proof (ceil_div_60_bounds (d - 120)).
  pose proof (ceil_div_60_bounds (d - 60)).
  fee_cases; lia.
Qed.

Lemma compute_parking_fee_night_vs_day_witness :
  compute_parking_fee (Fixtures.at_clock 0 10 0)
    (add_minutes (Fixtures.at_clock 0 10 0) 45)
  <= compute_parking_fee (Fixtures.at_clock 0 23 0)
       (add_minutes (Fixtures.at_clock 0 23 0) 45)
  <= compute_parking_fee (Fixtures.at_clock 0 10 0)
       (add_minutes (Fixtures.at_clock 0 10 0) 45) + 50.
Proof.
  apply compute_parking_fee_night_vs_day.
  - vm_compute. split; [discriminate | reflexivity].
  - vm_compute. intros [_ H]. discriminate H.
  - reflexivity.
Defined.

End FeeEngineMore.


(** ** Normalisation of texts and plates *)

Section Normalisation.
Import PyStr Datetime Store Env Main Shape.

Lemma str_of_int_negative (n : Z) :
  n < 0 -> exists rest, str_of_int n = String "-" rest.
Proof.
  intros Hn. destruct n as [| p | p]; try lia.
  unfold str_of_int. simpl. eexists. reflexivity.
Qed.

(** X6.  A negative minute count is rendered with a minus sign in front:
    the hour count is negative (floor division) while the minute part
    stays between 0 and 59. *)
Theorem convert_negative (n : Z) :
  n < 0 ->
  n / 60 < 0 /\ 0 <= n mod 60 < 60
  /\ exists rest, Utils.convert n = String "-" rest.
Proof.
  intros Hn.
  assert (Hh : n / 60 < 0) by (apply Z.div_lt_upper_bound; lia).
  split; [exact Hh |]. split; [apply Z.mod_pos_bound; lia |].
  unfold Utils.convert. cbv zeta.
  destruct (Z.eqb_spec (n / 60) 0) as [E | _]; [lia |].
  destruct (str_of_int_negative (n / 60) Hh) as (rest & Hrest).
  rewrite Hrest. destruct (n mod 60 =? 0); simpl; eexists; reflexivity.
Qed.

Lemma convert_negative_witness :
  exists rest, Utils.convert (-30) = String "-" rest.
Proof.
  apply (convert_negative (-30)). lia.
Defined.

Lemma forallb_filter (p : ascii -> bool) (s : string) :
  PyStr.forallb p (PyStr.filter p s) = true.
Proof.
  induction s as [| c s IH]; simpl; [reflexivity |].
  destruct (p c) eqn:E; simpl; [rewrite E |]; exact IH.
Qed.

Lemma forallb_lstrip_by (p drop : ascii -> bool) (s : string) :
  PyStr.forallb p s = true -> PyStr.forallb p (lstrip_by drop s) = true.
Proof.
  induction s as [| c s IH]; simpl; [reflexivity |].
  intros H. destruct (drop c); [| exact H].
  apply andb_true_iff in H as [_ H]. auto.
Qed.

Lemma forallb_rstrip_by (p drop : ascii -> bool) (s : string) :
  PyStr.forallb p s = true -> PyStr.forallb p (rstrip_by drop s) = true.
Proof.
  induction s as [| c s IH]; simpl; [reflexivity |].
  intros H. apply andb_true_iff in H as [Hc H]. specialize (IH H).
  destruct (rstrip_by drop s) as [| d r].
  - destruct (drop c); simpl; [reflexivity | rewrite Hc; reflexivity].
  - change (PyStr.forallb p (String c (String d r)) = true).
    simpl. simpl in IH. rewrite Hc. exact IH.
Qed.

Lemma forallb_app_right (p : ascii -> bool) (a b : string) :
  PyStr.forallb p (a ++ b) = true -> PyStr.forallb p b = true.
Proof.
  induction a as [| c a IH]; simpl; [auto |].
  intros H. apply andb_true_iff in H as [_ H]. auto.
Qed.

Lemma filter_id (p : ascii -> bool) (s : string) :
  PyStr.forallb p s = true -> PyStr.filter p s = s.
Proof.
  induction s as [| c s IH]; simpl; [reflexivity |].
  intros H. apply andb_true_iff in H as [Hc H]. rewrite Hc, IH; auto.
Qed.

Lemma upper_char_not_lower (c : ascii) : is_lower (upper_char c) = false.
Proof.
  destruct c as [[] [] [] [] [] [] [] []]; reflexivity.
Qed.

Lemma upper_char_space (c : ascii) :
  is_char " " (upper_char c) = is_char " " c.
Proof.
  destruct c as [[] [] [] [] [] [] [] []]; reflexivity.
Qed.

Lemma upper_char_idem (c : ascii) : upper_char (upper_char c) = upper_char c.
Proof.
  destruct c as [[] [] [] [] [] [] [] []]; reflexivity.
Qed.

Lemma plate_of_chars (g : string) : PyStr.forallb plate_char (plate_of g) = true.
Proof.
  unfold plate_of, remove_spaces, upper.
  induction g as [| c g IH]; simpl; [reflexivity |].
  destruct (is_char " " (upper_char c)) eqn:E; simpl; [exact IH |].
  unfold plate_char at 1. unfold not_space.
  rewrite E, upper_char_not_lower. simpl. exact IH.
Qed.

Lemma plate_of_idem (g : string) : plate_of (plate_of g) = plate_of g.
Proof.
  unfold plate_of, remove_spaces, upper.
  induction g as [| c g IH]; simpl; [reflexivity |].
  destruct (is_char " " (upper_char c)) eqn:E; simpl; [exact IH |].
  rewrite upper_char_idem, E. simpl. rewrite IH. reflexivity.
Qed.

(** X7.  Every plate the handlers pass on (the upper-cased capture of a
    USSD text, the joined words of a WhatsApp message) is free of
    spaces and of lower-case letters, and normalising it again changes
    nothing. *)
Theorem plates_are_canonical (g : string) (m : message) (c : command) :
  PyStr.forallb plate_char (plate_of g) = true
  /\ plate_of (plate_of g) = plate_of g
  /\ (parse_message m = Some c ->
      PyStr.forallb plate_char (carno_raw c) = true
      /\ plate_of (carno_raw c) = carno_raw c).
Proof.
  split; [apply plate_of_chars |]. split; [apply plate_of_idem |].
  unfold parse_message.
  destruct (List.length (split (lower (strip (text m)))) <? 2)%nat; [discriminate |].
  intros [= <-]. simpl.
  split; [apply plate_of_chars | apply plate_of_idem].
Qed.

Lemma plates_are_canonical_witness :
  PyStr.forallb plate_char "KCA123A" = true.
Proof.
  apply (plates_are_canonical "x" (mk_message "amount kca 123a" "+254700000001")
           (mk_command "amount" "KCA123A" "+254700000001")).
  reflexivity.
Defined.

End Normalisation.

(** ** Which branch a USSD text selects *)

Section BranchSelection.
Import PyStr Datetime Store Env Main Shape.

Lemma ussd_branch_pay_inv (text g : string) :
  ussd_branch text = At_PAY_INPUT g -> PATTERN_PAY_INPUT text = Some g.
Proof.
  unfold ussd_branch.
  destruct (PATTERN_INITIAL text); [discriminate |].
  destruct (PATTERN_PAY_MENU text); [discriminate |].
  destruct (PATTERN_PAY_INPUT text) as [g' |]; [congruence |].
  destruct (PATTERN_AMOUNT_MENU text); [discriminate |].
  destruct (PATTERN_AMOUNT_INPUT text); [discriminate |].
  destruct (PATTERN_TIME_MENU text); [discriminate |].
  destruct (PATTERN_TIME_INPUT text); [discriminate |].
  destruct (PATTERN_TERMS text); discriminate.
Qed.

Lemma ussd_branch_amount_inv (text g : string) :
  ussd_branch text = At_AMOUNT_INPUT g -> PATTERN_AMOUNT_INPUT text = Some g.
Proof.
  unfold ussd_branch.
  destruct (PATTERN_INITIAL text); [discriminate |].
  destruct (PATTERN_PAY_MENU text); [discriminate |].
  destruct (PATTERN_PAY_INPUT text); [discriminate |].
  destruct (PATTERN_AMOUNT_MENU text); [discriminate |].
  destruct (PATTERN_AMOUNT_INPUT text) as [g' |]; [congruence |].
  destruct (PATTERN_TIME_MENU text); [discriminate |].
  destruct (PATTERN_TIME_INPUT text); [discriminate |].
  destruct (PATTERN_TERMS text); discriminate.
Qed.

Lemma ussd_branch_time_inv (text g : string) :
  ussd_branch text = At_TIME_INPUT g -> PATTERN_TIME_INPUT text = Some g.
Proof.
  unfold ussd_branch.
  destruct (PATTERN_INITIAL text); [discriminate |].
  destruct (PATTERN_PAY_MENU text); [discriminate |].
  destruct (PATTERN_PAY_INPUT text); [discriminate |].
  destruct (PATTERN_AMOUNT_MENU text); [discriminate |].
  destruct (PATTERN_AMOUNT_INPUT text); [discriminate |].
  destruct (PATTERN_TIME_MENU text); [discriminate |].
  destruct (PATTERN_TIME_INPUT text) as [g' |]; [congruence |].
  destruct (PATTERN_TERMS text); discriminate.
Qed.

(** A plate-carrying branch, whichever it is, was selected by a text
    made of its literal and the captured group. *)
Lemma captured_shape (text g : string) :
  captured (ussd_branch text) = Some g ->
  exists lit, In lit ["98*1*"; "98*2*"; "98*3*"]
              /\ text = (lit ++ g)%string
              /\ g <> EmptyString
              /\ PyStr.forallb not_star_hash g = true.
Proof.
  destruct (ussd_branch text) as [| | g' | | g' | | g' | |] eqn:E;
    try discriminate; intros [= ->].
  - exists "98*1*". split; [left; reflexivity |].
    apply match_capture_iff, ussd_branch_pay_inv, E.
  - exists "98*2*". split; [right; left; reflexivity |].
    apply match_capture_iff, ussd_branch_amount_inv, E.
  - exists "98*3*". split; [right; right; left; reflexivity |].
    apply match_capture_iff, ussd_branch_time_inv, E.
Qed.

(** X8.  The payment, amount and duration branches are selected by
    exactly the texts 98*1*<arg>, 98*2*<arg> and 98*3*<arg> whose
    argument is non-empty and holds neither [*] nor [#]; the argument is
    what the branch captures. *)
Theorem ussd_branch_exact (text g : string) :
  (ussd_branch text = At_PAY_INPUT g
   <-> text = ("98*1*" ++ g)%string /\ g <> EmptyString
       /\ PyStr.forallb not_star_hash g = true)
  /\ (ussd_branch text = At_AMOUNT_INPUT g
      <-> text = ("98*2*" ++ g)%string /\ g <> EmptyString
          /\ PyStr.forallb not_star_hash g = true)
  /\ (ussd_branch text = At_TIME_INPUT g
      <-> text = ("98*3*" ++ g)%string /\ g <> EmptyString
          /\ PyStr.forallb not_star_hash g = true).
Proof.
  split; [| split]; split.
  - intros H. apply match_capture_iff, ussd_branch_pay_inv, H.
  - intros (-> & Hne & Hok). apply ussd_branch_pay_input; assumption.
  - intros H. apply match_capture_iff, ussd_branch_amount_inv, H.
  - intros (-> & Hne & Hok). apply ussd_branch_amount_input; assumption.
  - intros H. apply match_capture_iff, ussd_branch_time_inv, H.
  - intros (-> & Hne & Hok). apply ussd_branch_time_input; assumption.
Qed.

Lemma rstrip_by_idem (drop : ascii -> bool) (s : string) :
  rstrip_by drop (rstrip_by drop s) = rstrip_by drop s.
Proof.
  induction s as [| c s IH]; simpl; [reflexivity |].
  destruct (rstrip_by drop s) as [| d r] eqn:E.
  - destruct (drop c) eqn:D; simpl; [reflexivity | rewrite D; reflexivity].
  - change (rstrip_by drop (String c (String d r)) = String c (String d r)).
    change (rstrip_by drop (String c (String d r)))
      with (match rstrip_by drop (String d r) with
            | EmptyString => if drop c then EmptyString else String c EmptyString
            | r' => String c r'
            end).
    rewrite IH. reflexivity.
Qed.

Lemma ussd_text_stripped (req : request) :
  rstrip_by isspace (ussd_text req) = ussd_text req.
Proof. unfold ussd_text, strip. apply rstrip_by_idem. Qed.

Lemma ussd_text_no_space (req : request) :
  PyStr.forallb not_space (ussd_text req) = true.
Proof.
  unfold ussd_text, strip.
  apply forallb_rstrip_by, forallb_lstrip_by, forallb_rstrip_by.
  apply forallb_filter.
Qed.

Lemma match_exact_stripped (lit : string) (req : request) :
  rstrip_by isspace (lit ++ LF) <> (lit ++ LF)%string ->
  match_exact lit (ussd_text req) = true <-> ussd_text req = lit.
Proof.
  intros Hlf. unfold match_exact. rewrite orb_true_iff, !String.eqb_eq.
  split; [| auto]. intros [H | H]; [exact H |].
  exfalso. apply Hlf. rewrite <- H. apply ussd_text_stripped.
Qed.

(** X9.  The text the USSD handler matches holds no space character and
    no trailing white space.  So the welcome menu and the terms are
    selected by exactly 98 and 98*4 (the line feed that [$] would
    tolerate cannot occur), and the [replace(" ", "")] applied to a
    captured plate never removes anything. *)
Theorem ussd_text_normal_form (req : request) (g : string) :
  PyStr.forallb not_space (ussd_text req) = true
  /\ rstrip_by isspace (ussd_text req) = ussd_text req
  /\ (ussd_branch (ussd_text req) = At_INITIAL <-> ussd_text req = "98")
  /\ (ussd_branch (ussd_text req) = At_TERMS <-> ussd_text req = "98*4")
  /\ (captured (ussd_branch (ussd_text req)) = Some g -> plate_of g = upper g).
Proof.
  split; [apply ussd_text_no_space |].
  split; [apply ussd_text_stripped |].
  split; [| split].
  - unfold ussd_branch, PATTERN_INITIAL.
    rewrite <- (match_exact_stripped "98" req) by discriminate.
    destruct (match_exact "98" (ussd_text req)); [tauto |].
    split; [| discriminate].
    destruct (PATTERN_PAY_MENU _); [discriminate |].
    destruct (PATTERN_PAY_INPUT _); [discriminate |].
    destruct (PATTERN_AMOUNT_MENU _); [discriminate |].
    destruct (PATTERN_AMOUNT_INPUT _); [discriminate |].
    destruct (PATTERN_TIME_MENU _); [discriminate |].
    destruct (PATTERN_TIME_INPUT _); [discriminate |].
    destruct (PATTERN_TERMS _); discriminate.
  - split.
    + unfold ussd_branch.
      destruct (PATTERN_INITIAL _); [discriminate |].
      destruct (PATTERN_PAY_MENU _); [discriminate |].
      destruct (PATTERN_PAY_INPUT _); [discriminate |].
      destruct (PATTERN_AMOUNT_MENU _); [discriminate |].
      destruct (PATTERN_AMOUNT_INPUT _); [discriminate |].
      destruct (PATTERN_TIME_MENU _); [discriminate |].
      destruct (PATTERN_TIME_INPUT _); [discriminate |].
      destruct (PATTERN_TERMS (ussd_text req)) eqn:E; [| discriminate].
      intros _. apply (match_exact_stripped "98*4" req); [discriminate | exact E].
    + intros ->. reflexivity.
  - intros Hcap. destruct (captured_shape _ _ Hcap) as (lit & _ & Htext & _ & _).
    pose proof (ussd_text_no_space req) as Hns. rewrite Htext in Hns.
    apply forallb_app_right in Hns.
    unfold plate_of, remove_spaces.
    apply filter_id.
    clear -Hns. induction g as [| c g IH]; simpl in *; [reflexivity |].
    apply andb_true_iff in Hns as [Hc Hg].
    unfold not_space in Hc. rewrite upper_char_space. unfold not_space in IH.
    rewrite Hc. simpl. apply IH, Hg.
Qed.

Lemma ussd_text_normal_form_witness :
  plate_of "kca123x" = upper "kca123x".
Proof.
  apply (ussd_text_normal_form (Fixtures.dial "98*1*kca 123x#") "kca123x").
  reflexivity.
Defined.

End BranchSelection.


(** ** What a USSD request can and cannot do *)

Section UssdEffects.
Import PyStr Datetime Store Env Main Observe Shape.

(** X10.  Every USSD reply starts with "CON " or with "END ".  It
    starts with "CON " exactly for the welcome menu and the three
    plate prompts, and those four branches call nothing and write
    nothing. *)
Theorem ussd_reply_format
    (e : env) (now_dt : datetime) (req : request) (st : stores) :
  let menus := [At_INITIAL; At_PAY_MENU; At_AMOUNT_MENU; At_TIME_MENU] in
  (starts_with "CON " (response (ussd e now_dt req st)) = true
   \/ starts_with "END " (response (ussd e now_dt req st)) = true)
  /\ (starts_with "CON " (response (ussd e now_dt req st)) = true
      <-> In (ussd_branch (ussd_text req)) menus)
  /\ (In (ussd_branch (ussd_text req)) menus ->
      trace (ussd e now_dt req st) = [] /\ stores_after (ussd e now_dt req st) = st).
Proof.
  intros menus. subst menus. unfold ussd.
  destruct (ussd_branch (ussd_text req)) as [| | g | | g | | g | |];
    open_helpers; split_env; simpl; split_env;
    unfold WELCOME, ENTER_PLATE, RNG_NO_PAYMENT, RNG_NO_TIME, PUSH_SENT,
      NOT_FOUND, TRY_AGAIN, TERMS, INVALID, starts_with; simpl.
  all: split; [first [left; reflexivity | right; reflexivity] |].
  all: split;
    [ split;
      [ intros H; first [discriminate H | tauto]
      | intros H; first [reflexivity
                        | exfalso; decompose [or] H; first [discriminate | assumption]] ]
    | intros H; first [split; reflexivity
                      | exfalso; decompose [or] H; first [discriminate | assumption]] ].
Qed.

Lemma ussd_reply_format_witness :
  trace (ussd (Fixtures.env_up 200) Fixtures.noon (Fixtures.dial "98*2")
           Fixtures.only_a) = []
  /\ stores_after (ussd (Fixtures.env_up 200) Fixtures.noon (Fixtures.dial "98*2")
                     Fixtures.only_a) = Fixtures.only_a.
Proof.
  apply (ussd_reply_format (Fixtures.env_up 200) Fixtures.noon
           (Fixtures.dial "98*2") Fixtures.only_a).
  right; right; left; reflexivity.
Defined.

Lemma set_mobile_fixed_columns (phone : string) (carid : Z) (rows : table) :
  List.map fixed_columns (set_mobile phone carid rows) = List.map fixed_columns rows.
Proof.
  unfold set_mobile. rewrite List.map_map. apply List.map_ext.
  intros r. destruct (id r =? carid); reflexivity.
Qed.

Lemma set_mobile_rows (phone : string) (carid : Z) (rows : table) (r' : transaction) :
  In r' (set_mobile phone carid rows) ->
  In r' rows \/ mobile_number r' = Some phone.
Proof.
  unfold set_mobile. rewrite in_map_iff. intros (r & <- & Hin).
  destruct (id r =? carid); [right; reflexivity | left; exact Hin].
Qed.

(** X11.  A USSD request never writes the SyfeParking store, and in the
    default store it changes nothing but [mobile_number]: the rows keep
    their number, order, [id], plate and [time_in], and a row that
    differs from before carries the caller's phone. *)
Theorem ussd_writes_only_mobile_number
    (e : env) (now_dt : datetime) (req : request) (st : stores) :
  syfe (stores_after (ussd e now_dt req st)) = syfe st
  /\ List.map fixed_columns (ridgeways (stores_after (ussd e now_dt req st)))
     = List.map fixed_columns (ridgeways st)
  /\ forall r', In r' (ridgeways (stores_after (ussd e now_dt req st))) ->
                In r' (ridgeways st) \/ mobile_number r' = Some (ussd_phone req).
Proof.
  unfold ussd.
  destruct (ussd_branch (ussd_text req)) as [| | g | | g | | g | |];
    open_helpers; split_env; simpl; split_env; simpl;
    (split; [reflexivity |]);
    (split; [first [reflexivity | apply set_mobile_fixed_columns] |]);
    intros r' Hin; first [left; exact Hin | exact (set_mobile_rows _ _ _ _ Hin)].
Qed.

(** X12.  A USSD request calls the payment initiator at most once, and
    only on 98*1*<plate> for a plate the SyfeParking guard does not
    claim, with the normalised plate and the caller's phone; amount
    checks, duration checks and menus never start a payment. *)
Theorem ussd_push_only_on_pay
    (e : env) (now_dt : datetime) (req : request) (st : stores) :
  pushes (trace (ussd e now_dt req st)) = []
  \/ exists g,
       ussd_branch (ussd_text req) = At_PAY_INPUT g
       /\ fst (is_rng_vehicle e (plate_of g) (syfe st)) = false
       /\ pushes (trace (ussd e now_dt req st))
          = [Call_trigger_mpesa_push (plate_of g) (ussd_phone req)].
Proof.
  unfold ussd.
  destruct (ussd_branch (ussd_text req)) as [| | g | | g | | g | |] eqn:Hb;
    try (left; reflexivity);
    open_helpers; split_env; simpl; split_env; simpl;
    first [left; reflexivity
          | right; exists g; split; [reflexivity |];
            split; [simpl; first [reflexivity | assumption] | reflexivity]].
Qed.

Lemma latest_none_iff (carno : string) (rows : table) :
  latest carno rows = None <-> has_plate carno rows = false.
Proof.
  split.
  - intros H. destruct (has_plate carno rows) eqn:E; [| reflexivity].
    apply has_plate_iff in E as (r & Hin & Hr).
    exfalso. exact (latest_none carno rows H r Hin Hr).
  - intros H. destruct (latest carno rows) as [r |] eqn:E; [| reflexivity].
    apply latest_sound in E as (Hin & Hr & _).
    assert (has_plate carno rows = true) by (apply has_plate_iff; eauto).
    congruence.
Qed.

(** X13.  On an amount or duration check of a plate the SyfeParking
    guard does not claim, the reply is "Vehicle not found!" exactly when
    the plate has no row in the default store or the lookup itself
    fails: a database error is reported as a missing vehicle. *)
Theorem ussd_not_found_iff
    (e : env) (now_dt : datetime) (req : request) (st : stores) (g : string) :
  ussd_branch (ussd_text req) = At_AMOUNT_INPUT g
  \/ ussd_branch (ussd_text req) = At_TIME_INPUT g ->
  fst (is_rng_vehicle e (plate_of g) (syfe st)) = false ->
  (response (ussd e now_dt req st) = NOT_FOUND
   <-> session_raises e In_get_vehicle_transaction = true
       \/ has_plate (plate_of g) (ridgeways st) = false).
Proof.
  intros Hb Hrng. rewrite <- latest_none_iff. unfold ussd.
  destruct Hb as [-> | ->].
  - unfold amount_input.
    destruct (is_rng_vehicle e (plate_of g) (syfe st)) as [rng tr1].
    simpl in Hrng. subst rng.
    destruct (link_phone_to_vehicle_effect e (plate_of g) (ussd_phone req)
                (ridgeways st)) as (_ & _ & Hg).
    destruct (link_phone_to_vehicle e (plate_of g) (ussd_phone req) (ridgeways st))
      as [rows tr2].
    simpl in Hg. rewrite Hg. unfold get_vehicle_transaction.
    destruct (session_raises e In_get_vehicle_transaction); simpl.
    + split; auto.
    + destruct (latest (plate_of g) (ridgeways st)) as [r |]; simpl.
      * destruct (compute_parking_fee (time_in r) now_dt =? 0);
          split; [discriminate | intros [H | H]; discriminate
                 | discriminate | intros [H | H]; discriminate].
      * split; auto.
  - unfold time_input.
    destruct (is_rng_vehicle e (plate_of g) (syfe st)) as [rng tr1].
    simpl in Hrng. subst rng. unfold get_vehicle_transaction.
    destruct (session_raises e In_get_vehicle_transaction); simpl.
    + split; auto.
    + destruct (latest (plate_of g) (ridgeways st)) as [r |]; simpl.
      * split; [discriminate | intros [H | H]; discriminate].
      * split; auto.
Qed.

Lemma ussd_not_found_iff_witness :
  response (ussd (Fixtures.env_down In_get_vehicle_transaction 200) Fixtures.noon
              (Fixtures.dial "98*3*kca123x") Fixtures.only_a)
  = NOT_FOUND.
Proof.
  apply (ussd_not_found_iff (Fixtures.env_down In_get_vehicle_transaction 200)
           Fixtures.noon (Fixtures.dial "98*3*kca123x") Fixtures.only_a "kca123x").
  - right; reflexivity.
  - reflexivity.
  - left; reflexivity.
Defined.

(** X14.  The generic "An error occurred. Please try again." reply is
    given in exactly two situations: a payment request whose push
    endpoint answers with JSON that is not an object, and an amount
    request for a SyfeParking plate whose fee lookup raises.  Every
    other failure is answered in some other way. *)
Theorem ussd_try_again_iff
    (e : env) (now_dt : datetime) (req : request) (st : stores) :
  response (ussd e now_dt req st) = TRY_AGAIN
  <-> exists g,
        (ussd_branch (ussd_text req) = At_PAY_INPUT g
         /\ fst (is_rng_vehicle e (plate_of g) (syfe st)) = false
         /\ pushpayment e (remove_spaces (plate_of g)) (ussd_phone req) = Json_other)
        \/ (ussd_branch (ussd_text req) = At_AMOUNT_INPUT g
            /\ fst (is_rng_vehicle e (plate_of g) (syfe st)) = true
            /\ session_raises e In_rng_check_parking_fee_due = true).
Proof.
  split.
  - unfold ussd.
    destruct (ussd_branch (ussd_text req)) as [| | g | | g | | g | |] eqn:Hb;
      try discriminate;
      open_helpers; split_env; simpl; split_env; simpl;
      unfold TRY_AGAIN; intros H; try discriminate H; exists g;
      first [ left; repeat split; simpl; first [reflexivity | assumption]
            | right; repeat split; simpl; first [reflexivity | assumption] ].
  - intros (g & [(Hb & Hrng & Hpush) | (Hb & Hrng & Hfee)]);
      unfold ussd; rewrite Hb.
    + unfold pay_input.
      destruct (is_rng_vehicle e (plate_of g) (syfe st)) as [rng tr1].
      simpl in Hrng. subst rng.
      destruct (link_phone_to_vehicle e (plate_of g) (ussd_phone req) (ridgeways st))
        as [rows tr2].
      unfold trigger_mpesa_push. rewrite Hpush. reflexivity.
    + unfold amount_input.
      destruct (is_rng_vehicle e (plate_of g) (syfe st)) as [rng tr1].
      simpl in Hrng. subst rng.
      unfold rng_check_parking_fee_due. rewrite Hfee. reflexivity.
Qed.

Lemma fee_zero_or_charged (entry_dt exit_dt : datetime) :
  (compute_parking_fee entry_dt exit_dt = 0
   /\ (DAY_START <= time_of entry_dt < DAY_END)
   /\ duration_minutes entry_dt exit_dt <= 30)
  \/ (50 <= compute_parking_fee entry_dt exit_dt
      /\ ~ ((DAY_START <= time_of entry_dt < DAY_END)
            /\ duration_minutes entry_dt exit_dt <= 30)).
Proof.
  rewrite <- is_day_entry_iff.
  destruct (is_day_entry entry_dt) eqn:Hday.
  - rewrite (compute_parking_fee_day _ _ Hday). cbv zeta.
    pose proof (ceil_div_60_bounds (duration_minutes entry_dt exit_dt - 120)).
    fee_cases; [left | right | right]; repeat split; try lia; intros [_ ?]; lia.
  - right. rewrite (compute_parking_fee_night _ _ Hday). cbv zeta.
    pose proof (ceil_div_60_bounds (duration_minutes entry_dt exit_dt - 60)).
    split; [fee_cases; lia | intros [? _]; discriminate].
Qed.

(** X15.  An amount check of a parked Operator-A vehicle answers "No
    charge. Within free time." exactly when the vehicle entered in
    [06:00:00, 22:00:00) and has stayed at most 30 minutes; otherwise it
    quotes the fee of the day/night engine, which is then at least
    50. *)
Theorem ussd_amount_free_iff
    (e : env) (now_dt : datetime) (req : request) (st : stores)
    (g : string) (row : transaction) :
  ussd_branch (ussd_text req) = At_AMOUNT_INPUT g ->
  fst (is_rng_vehicle e (plate_of g) (syfe st)) = false ->
  session_raises e In_get_vehicle_transaction = false ->
  latest (plate_of g) (ridgeways st) = Some row ->
  (response (ussd e now_dt req st) = "END No charge. Within free time."
   <-> (DAY_START <= time_of (time_in row) < DAY_END)
       /\ duration_minutes (time_in row) now_dt <= 30)
  /\ (response (ussd e now_dt req st) = "END No charge. Within free time."
      \/ (response (ussd e now_dt req st)
          = ("END Amount due: KES "
               ++ str_of_int (compute_parking_fee (time_in row) now_dt))%string
          /\ 50 <= compute_parking_fee (time_in row) now_dt)).
Proof.
  intros Hb Hrng Hup Hrow. unfold ussd. rewrite Hb. unfold amount_input.
  destruct (is_rng_vehicle e (plate_of g) (syfe st)) as [rng tr1].
  simpl in Hrng. subst rng.
  destruct (link_phone_to_vehicle_effect e (plate_of g) (ussd_phone req)
              (ridgeways st)) as (_ & _ & Hg).
  destruct (link_phone_to_vehicle e (plate_of g) (ussd_phone req) (ridgeways st))
    as [rows tr2].
  simpl in Hg. rewrite Hg. unfold get_vehicle_transaction.
  rewrite Hup, Hrow. simpl.
  destruct (fee_zero_or_charged (time_in row) now_dt) as [(Hz & Hd) | (Hc & Hn)].
  - rewrite Hz. simpl. split; [tauto | left; reflexivity].
  - destruct (Z.eqb_spec (compute_parking_fee (time_in row) now_dt) 0) as [E | E];
      [lia |].
    split; [| right; split; [reflexivity | exact Hc]].
    split; [discriminate | intros H; contradiction].
Qed.

Lemma ussd_amount_free_iff_witness :
  response (ussd (Fixtures.env_up 200) Fixtures.noon
              (Fixtures.dial "98*2*kca123x") Fixtures.only_a)
  = "END Amount due: KES 100"
  /\ 50 <= compute_parking_fee (time_in Fixtures.row_a) Fixtures.noon.
Proof.
  destruct (ussd_amount_free_iff (Fixtures.env_up 200) Fixtures.noon
              (Fixtures.dial "98*2*kca123x") Fixtures.only_a "kca123x"
              Fixtures.row_a) as [_ [H | H]].
  - reflexivity.
  - reflexivity.
  - reflexivity.
  - reflexivity.
  - discriminate H.
  - exact H.
Defined.

End UssdEffects.


(** ** The IVR enumeration *)

Section IvrEnumeration.
Import PyStr Datetime Store Env Main Observe Shape.

Lemma insert_desc_perm (x : Z * string) (l : list (Z * string)) :
  Permutation (insert_desc x l) (x :: l).
Proof.
  induction l as [| y ys IH]; simpl; [apply Permutation_refl |].
  destruct (fst y <? fst x); [apply Permutation_refl |].
  eapply Permutation_trans; [apply perm_skip, IH | apply perm_swap].
Qed.

Lemma sort_desc_perm (l : list (Z * string)) :
  Permutation (fold_right insert_desc [] l) l.
Proof.
  induction l as [| x l IH]; simpl; [apply Permutation_refl |].
  eapply Permutation_trans; [apply insert_desc_perm | apply perm_skip, IH].
Qed.

Lemma insert_desc_sorted (x : Z * string) (l : list (Z * string)) :
  StronglySorted by_key_desc l -> StronglySorted by_key_desc (insert_desc x l).
Proof.
  induction l as [| y ys IH]; intros Hs; simpl.
  - constructor; constructor.
  - inversion Hs as [| ? ? Hys Hall]; subst.
    destruct (Z.ltb_spec (fst y) (fst x)) as [Hlt | Hge].
    + constructor; [exact Hs |]. constructor; [unfold by_key_desc; lia |].
      rewrite Forall_forall in *. intros z Hz.
      specialize (Hall z Hz). unfold by_key_desc in *. lia.
    + constructor; [apply IH, Hys |].
      rewrite Forall_forall in *. intros z Hz.
      apply (Permutation_in _ (insert_desc_perm x ys)) in Hz.
      destruct Hz as [<- | Hz]; [exact Hge | apply Hall, Hz].
Qed.

Lemma sort_desc_sorted (l : list (Z * string)) :
  StronglySorted by_key_desc (fold_right insert_desc [] l).
Proof.
  induction l as [| x l IH]; simpl; [constructor | apply insert_desc_sorted, IH].
Qed.

Lemma get_vehicles_perm (from_number : string) (rows : table) :
  Permutation (get_vehicles from_number rows)
    (nodup string_dec
       (List.map vehicle_number (List.filter (linked_to from_number) rows))).
Proof.
  unfold get_vehicles.
  set (mine := List.filter (linked_to from_number) rows).
  set (plates := nodup string_dec (List.map vehicle_number mine)).
  eapply Permutation_trans.
  - apply Permutation_map, sort_desc_perm.
  - rewrite List.map_map. simpl. rewrite List.map_id. apply Permutation_refl.
Qed.

Lemma linked_to_iff (from_number : string) (r : transaction) :
  linked_to from_number r = true <-> mobile_number r = Some from_number.
Proof.
  unfold linked_to. destruct (mobile_number r) as [p |].
  - rewrite String.eqb_eq. split; congruence.
  - split; discriminate.
Qed.

(** The plates offered to a caller are those of the rows linked to
    the caller's number. *)
Lemma get_vehicles_in (from_number : string) (rows : table) (plate : string) :
  In plate (get_vehicles from_number rows)
  <-> exists r, In r rows /\ mobile_number r = Some from_number
                /\ vehicle_number r = plate.
Proof.
  split.
  - intros H. apply (Permutation_in _ (get_vehicles_perm from_number rows)) in H.
    apply nodup_In, in_map_iff in H as (r & Hv & Hin).
    apply filter_In in Hin as (Hin & Hl). apply linked_to_iff in Hl. eauto.
  - intros (r & Hin & Hm & Hv).
    apply (Permutation_in _ (Permutation_sym (get_vehicles_perm from_number rows))).
    apply nodup_In, in_map_iff. exists r. split; [exact Hv |].
    apply filter_In. split; [exact Hin | apply linked_to_iff, Hm].
Qed.

Lemma min_id_lower_bound (plate : string) (rows : table) (r : transaction) :
  In r rows -> vehicle_number r = plate -> min_id plate rows <= id r.
Proof.
  induction rows as [| r0 rs IH]; intros Hin Hv; [destruct Hin |].
  simpl. destruct Hin as [-> | Hin].
  - rewrite (proj2 (String.eqb_eq _ _) Hv).
    destruct (has_plate plate rs); lia.
  - specialize (IH Hin Hv).
    destruct (String.eqb (vehicle_number r0) plate); [| exact IH].
    assert (Hp : has_plate plate rs = true) by (apply has_plate_iff; eauto).
    rewrite Hp. lia.
Qed.

Lemma min_id_attained (plate : string) (rows : table) :
  has_plate plate rows = true ->
  exists r, In r rows /\ vehicle_number r = plate /\ id r = min_id plate rows.
Proof.
  induction rows as [| r0 rs IH]; [discriminate |].
  intros Hp. simpl.
  destruct (String.eqb_spec (vehicle_number r0) plate) as [Hv | Hv].
  - destruct (has_plate plate rs) eqn:E.
    + destruct (IH eq_refl) as (r & Hin & Hr & Hid).
      destruct (Z.le_ge_cases (id r0) (min_id plate rs)) as [Hle | Hge].
      * exists r0. rewrite Z.min_l by exact Hle. simpl; auto.
      * exists r. rewrite Z.min_r by lia. simpl; auto.
    + exists r0. simpl; auto.
  - simpl in Hp. rewrite (proj2 (String.eqb_neq _ _) Hv) in Hp. simpl in Hp.
    destruct (IH Hp) as (r & Hin & Hr & Hid). exists r. simpl; auto.
Qed.

(** X16.  The list the IVR enumerates holds exactly the plates of the
    rows whose [mobile_number] is the caller's number, each plate once,
    ordered by the smallest [id] among the caller's rows of the plate,
    greatest first. *)
Theorem get_vehicles_spec (from_number : string) (rows : table) :
  let mine := List.filter (linked_to from_number) rows in
  (forall plate,
      In plate (get_vehicles from_number rows)
      <-> exists r, In r rows /\ mobile_number r = Some from_number
                    /\ vehicle_number r = plate)
  /\ NoDup (get_vehicles from_number rows)
  /\ StronglySorted (fun p q => min_id q mine <= min_id p mine)
       (get_vehicles from_number rows)
  /\ (forall plate, In plate (get_vehicles from_number rows) ->
        (exists r, In r mine /\ vehicle_number r = plate
                   /\ id r = min_id plate mine)
        /\ forall r, In r mine -> vehicle_number r = plate ->
                     min_id plate mine <= id r).
Proof.
  intros mine. split; [apply get_vehicles_in |]. split; [| split].
  - apply (Permutation_NoDup (Permutation_sym (get_vehicles_perm from_number rows))).
    apply NoDup_nodup.
  - unfold get_vehicles. fold mine.
    set (pairs := List.map (fun p => (min_id p mine, p))
                    (nodup string_dec (List.map vehicle_number mine))).
    assert (Hkey : forall x, In x (fold_right insert_desc [] pairs) ->
                             fst x = min_id (snd x) mine).
    { intros x Hx. apply (Permutation_in _ (sort_desc_perm pairs)) in Hx.
      apply in_map_iff in Hx as (p & <- & _). reflexivity. }
    pose proof (sort_desc_sorted pairs) as Hs.
    induction Hs as [| x l Hl IH Hall]; simpl; constructor.
    + apply IH. intros y Hy. apply Hkey. right; exact Hy.
    + rewrite Forall_forall in *. intros q Hq.
      apply in_map_iff in Hq as (y & <- & Hy).
      specialize (Hall y Hy). unfold by_key_desc in Hall.
      rewrite <- (Hkey x (or_introl eq_refl)), <- (Hkey y (or_intror Hy)).
      exact Hall.
  - intros plate Hin.
    apply get_vehicles_in in Hin as (r & Hr & Hm & Hv).
    assert (Hmine : In r mine).
    { apply filter_In. split; [exact Hr | apply linked_to_iff, Hm]. }
    split.
    + apply min_id_attained. apply has_plate_iff. eauto.
    + intros r' Hr' Hv'. apply min_id_lower_bound; assumption.
Qed.

End IvrEnumeration.

(** ** The IVR handler *)

Section IvrHandler.
Import PyStr Datetime Store Env Main Observe Shape.

Lemma trigger_mpesa_push_pushes (e : env) (carno phone : string) :
  pushes (snd (trigger_mpesa_push e carno phone))
  = [Call_trigger_mpesa_push carno phone].
Proof.
  unfold trigger_mpesa_push.
  destruct (pushpayment e (remove_spaces carno) phone); reflexivity.
Qed.

(** X17.  The IVR never starts a payment on its first turn (no digit)
    or when its store session raises, and on a second turn it starts at
    most one, always to the caller's own number and for the plate of a
    row linked to that number. *)
Theorem twilio_ivr_push_discipline (e : env) (req : ivr_request) (rows : table) :
  let from_number := lstrip_by (is_char "+") (form_From req) in
  (form_Digits req = None \/ form_Digits req = Some EmptyString ->
   snd (twilio_ivr e req rows) = [])
  /\ (session_raises e In_twilio_ivr = true ->
      twilio_ivr e req rows = (None, []))
  /\ (pushes (snd (twilio_ivr e req rows)) = []
      \/ exists r, In r rows /\ mobile_number r = Some from_number
                   /\ pushes (snd (twilio_ivr e req rows))
                      = [Call_trigger_mpesa_push
                           (remove_spaces (vehicle_number r)) from_number]).
Proof.
  intros from_number. unfold twilio_ivr. fold from_number.
  destruct (session_raises e In_twilio_ivr).
  { split; [reflexivity |]. split; [reflexivity | left; reflexivity]. }
  split; [| split; [discriminate |]].
  - intros [-> | ->]; simpl;
      destruct (get_vehicles from_number rows); reflexivity.
  - destruct (form_Digits req) as [d |]; simpl.
    2: { left. destruct (get_vehicles from_number rows); reflexivity. }
    destruct (negb (nonempty d)).
    { left. destruct (get_vehicles from_number rows); reflexivity. }
    destruct (py_int d) as [choice |]; [| left; reflexivity].
    destruct (Z.leb_spec 1 choice) as [H1 | H1]; [| left; reflexivity].
    destruct (Z.leb_spec choice (Z.of_nat (List.length (get_vehicles from_number rows))))
      as [H2 | H2]; [| left; reflexivity].
    simpl. right.
    assert (Hnth : In (nth (Z.to_nat (choice - 1)) (get_vehicles from_number rows)
                        EmptyString)
                      (get_vehicles from_number rows)).
    { apply nth_In. lia. }
    apply get_vehicles_in in Hnth as (r & Hin & Hm & Hv).
    exists r. split; [exact Hin |]. split; [exact Hm |].
    rewrite Hv.
    pose proof (trigger_mpesa_push_pushes e
                  (remove_spaces (nth (Z.to_nat (choice - 1))
                                    (get_vehicles from_number rows) EmptyString))
                  from_number) as Hp.
    destruct (trigger_mpesa_push e
                (remove_spaces (nth (Z.to_nat (choice - 1))
                                  (get_vehicles from_number rows) EmptyString))
                from_number) as [[code |] tr];
      simpl in Hp; [destruct (code_is_200 code) |]; exact Hp.
Qed.

Lemma twilio_ivr_push_discipline_witness :
  snd (twilio_ivr (Fixtures.env_up 200)
         (mk_ivr_request Fixtures.caller None) [Fixtures.row_a_linked]) = [].
Proof.
  apply (twilio_ivr_push_discipline (Fixtures.env_up 200)
           (mk_ivr_request Fixtures.caller None) [Fixtures.row_a_linked]).
  left; reflexivity.
Defined.

Lemma prompts_from_length (i : Z) (vehicles : list string) :
  List.length (prompts_from i vehicles) = List.length vehicles.
Proof.
  revert i. induction vehicles as [| car rest IH]; intros i; simpl;
    [reflexivity | now rewrite IH].
Qed.

(** X18.  When its store session commits, the IVR always answers.  A
    turn without a digit either says that no vehicle is linked and
    hangs up, or gathers one digit after the welcome and at most nine
    vehicle prompts; a turn with a digit says one sentence and hangs
    up. *)
Theorem twilio_ivr_reply_shape (e : env) (req : ivr_request) (rows : table) :
  session_raises e In_twilio_ivr = false ->
  let vehicles := get_vehicles (lstrip_by (is_char "+") (form_From req)) rows in
  (form_Digits req = None \/ form_Digits req = Some EmptyString ->
   (vehicles = []
    /\ fst (twilio_ivr e req rows)
       = Some [Say "No vehicles linked to your number. Use USSD to pay. Goodbye.";
               Hangup])
   \/ (vehicles <> []
       /\ exists prompts,
            fst (twilio_ivr e req rows)
            = Some [Gather ("Welcome to Ridgeways Parking Payment. Select your vehicle."
                              :: prompts)]
            /\ List.length prompts = Nat.min 9 (List.length vehicles)))
  /\ (forall d, form_Digits req = Some d -> d <> EmptyString ->
      exists words, fst (twilio_ivr e req rows) = Some [Say words; Hangup]).
Proof.
  intros Hup vehicles. unfold twilio_ivr. rewrite Hup. fold vehicles. split.
  - intros [-> | ->]; cbn [negb nonempty]; destruct vehicles as [| v vs] eqn:E;
      cbn [fst].
    + left. split; reflexivity.
    + right. split; [discriminate |]. eexists. split; [reflexivity |].
      rewrite prompts_from_length. apply length_firstn.
    + left. split; reflexivity.
    + right. split; [discriminate |]. eexists. split; [reflexivity |].
      rewrite prompts_from_length. apply length_firstn.
  - intros d -> Hd. apply nonempty_true in Hd. rewrite Hd. simpl.
    destruct (py_int d) as [choice |]; [| eexists; reflexivity].
    destruct ((1 <=? choice) && (choice <=? Z.of_nat (List.length vehicles)));
      [| eexists; reflexivity].
    destruct (trigger_mpesa_push e _ _) as [[code |] tr];
      [destruct (code_is_200 code) |]; eexists; reflexivity.
Qed.

Lemma twilio_ivr_reply_shape_witness :
  exists words,
    fst (twilio_ivr (Fixtures.env_up 200)
           (mk_ivr_request Fixtures.caller (Some "7")) [Fixtures.row_a_linked])
    = Some [Say words; Hangup].
Proof.
  destruct (twilio_ivr_reply_shape (Fixtures.env_up 200)
              (mk_ivr_request Fixtures.caller (Some "7")) [Fixtures.row_a_linked])
    as [_ H].
  - reflexivity.
  - apply (H "7"); [reflexivity | discriminate].
Defined.

Lemma prompts_from_nth (i : Z) (vehicles : list string) (n : nat) (car : string) :
  nth_error vehicles n = Some car ->
  nth_error (prompts_from i vehicles) n
  = Some ("For " ++ car ++ ", press " ++ str_of_int (i + Z.of_nat n) ++ ".")%string.
Proof.
  revert i n. induction vehicles as [| v vs IH]; intros i n H.
  - destruct n; discriminate.
  - destruct n as [| n].
    + injection H as ->. simpl. rewrite Z.add_0_r. reflexivity.
    + simpl in H. change (prompts_from i (v :: vs))
        with (("For " ++ v ++ ", press " ++ str_of_int i ++ ".")%string
                :: prompts_from (i + 1) vs).
      cbn [nth_error]. rewrite (IH (i + 1) n H).
      replace (i + Z.of_nat (S n)) with (i + 1 + Z.of_nat n) by lia.
      reflexivity.
Qed.

Lemma py_int_digit (i : Z) :
  1 <= i <= 9 -> nonempty (str_of_int i) = true /\ py_int (str_of_int i) = Some i.
Proof.
  intros H.
  assert (Hi : i = 1 \/ i = 2 \/ i = 3 \/ i = 4 \/ i = 5 \/ i = 6 \/ i = 7
               \/ i = 8 \/ i = 9) by lia.
  decompose [or] Hi; subst i; split; reflexivity.
Qed.

(** X19.  The two turns of the IVR agree.  For each of the first nine
    vehicles of the caller, the first turn announces the vehicle with
    its position as the digit to press, and a second turn with that
    digit, over the same rows, starts the payment for exactly that
    vehicle to the caller's number. *)
Theorem twilio_ivr_turns_agree
    (e : env) (caller_id : string) (rows : table) (i : Z) (car : string) :
  session_raises e In_twilio_ivr = false ->
  1 <= i <= 9 ->
  nth_error (get_vehicles (lstrip_by (is_char "+") caller_id) rows)
    (Z.to_nat (i - 1)) = Some car ->
  (exists prompts,
      fst (twilio_ivr e (mk_ivr_request caller_id None) rows) = Some [Gather prompts]
      /\ nth_error prompts (Z.to_nat i)
         = Some ("For " ++ car ++ ", press " ++ str_of_int i ++ ".")%string)
  /\ pushes (snd (twilio_ivr e (mk_ivr_request caller_id (Some (str_of_int i))) rows))
     = [Call_trigger_mpesa_push (remove_spaces car)
          (lstrip_by (is_char "+") caller_id)].
Proof.
  intros Hup Hi Hnth.
  set (from_number := lstrip_by (is_char "+") caller_id) in *.
  set (vehicles := get_vehicles from_number rows) in *.
  assert (Hlen : (Z.to_nat (i - 1) < List.length vehicles)%nat).
  { apply nth_error_Some. congruence. }
  split.
  - unfold twilio_ivr. rewrite Hup. cbn [form_Digits form_From].
    fold from_number. fold vehicles.
    destruct vehicles as [| v vs] eqn:E; [simpl in Hlen; lia |].
    cbn [fst]. eexists. split; [reflexivity |].
    replace (Z.to_nat i) with (S (Z.to_nat (i - 1))) by lia.
    cbn [nth_error].
    rewrite (prompts_from_nth 1 (firstn 9 (v :: vs)) (Z.to_nat (i - 1)) car).
    + replace (1 + Z.of_nat (Z.to_nat (i - 1))) with i by lia. reflexivity.
    + rewrite nth_error_firstn.
      replace (Z.to_nat (i - 1) <? 9)%nat with true; [exact Hnth |].
      symmetry. apply Nat.ltb_lt. lia.
  - destruct (py_int_digit i Hi) as (Hne & Hint).
    unfold twilio_ivr. rewrite Hup. cbn [form_Digits form_From].
    fold from_number. fold vehicles.
    rewrite Hne. cbn [negb]. rewrite Hint.
    replace ((1 <=? i) && (i <=? Z.of_nat (List.length vehicles))) with true.
    2: { symmetry. apply andb_true_iff. split; apply Z.leb_le; lia. }
    rewrite (nth_error_nth _ _ EmptyString Hnth).
    pose proof (trigger_mpesa_push_pushes e (remove_spaces car) from_number) as Hp.
    destruct (trigger_mpesa_push e (remove_spaces car) from_number) as [[code |] tr];
      simpl in Hp; [destruct (code_is_200 code) |]; exact Hp.
Qed.

Lemma twilio_ivr_turns_agree_witness :
  pushes (snd (twilio_ivr (Fixtures.env_up 200)
                 (mk_ivr_request Fixtures.caller (Some "1"))
                 [Fixtures.row_a_linked]))
  = [Call_trigger_mpesa_push "KCA123X" "254700000001"].
Proof.
  apply (twilio_ivr_turns_agree (Fixtures.env_up 200) Fixtures.caller
           [Fixtures.row_a_linked] 1 "KCA123X").
  - reflexivity.
  - lia.
  - reflexivity.
Defined.

(** X20.  Linking through USSD is what the IVR later reads: after a
    payment or amount request whose link committed for a parked
    Operator-A vehicle, the plate is among the vehicles enumerated for
    the same caller number, and a first IVR turn from that number
    gathers a digit instead of saying that no vehicle is linked. *)
Theorem ussd_link_then_ivr_offers
    (e : env) (now_dt : datetime) (req : request) (st : stores)
    (lit plate : string) (row : transaction) (e_ivr : env) :
  In lit ["98*1*"; "98*2*"] ->
  ussd_text req = (lit ++ plate)%string ->
  plate <> EmptyString ->
  PyStr.forallb not_star_hash plate = true ->
  fst (is_rng_vehicle e (plate_of plate) (syfe st)) = false ->
  session_raises e In_link_phone_to_vehicle = false ->
  latest (plate_of plate) (ridgeways st) = Some row ->
  session_raises e_ivr In_twilio_ivr = false ->
  In (plate_of plate)
    (get_vehicles (ussd_phone req)
       (ridgeways (stores_after (ussd e now_dt req st))))
  /\ exists prompts,
       fst (twilio_ivr e_ivr (mk_ivr_request (msisdn req) None)
              (ridgeways (stores_after (ussd e now_dt req st))))
       = Some [Gather prompts].
Proof.
  intros Hlit Htext Hne Hok Hrng Hlink Hrow Hivr.
  assert (Hst : ridgeways (stores_after (ussd e now_dt req st))
                = set_mobile (ussd_phone req) (id row) (ridgeways st)).
  { unfold ussd. rewrite Htext. simpl in Hlit. destruct Hlit as [<- | [<- | []]].
    - rewrite (ussd_branch_pay_input plate Hne Hok).
      destruct (pay_input_shape e now_dt (ussd_phone req) (plate_of plate) st Hrng)
        as (_ & _ & _ & ->).
      unfold link_phone_to_vehicle. rewrite Hlink, Hrow. reflexivity.
    - rewrite (ussd_branch_amount_input plate Hne Hok).
      destruct (amount_input_shape e now_dt (ussd_phone req) (plate_of plate) st Hrng)
        as (_ & _ & _ & ->).
      unfold link_phone_to_vehicle. rewrite Hlink, Hrow. reflexivity. }
  rewrite Hst.
  assert (Hin : In (plate_of plate)
                  (get_vehicles (ussd_phone req)
                     (set_mobile (ussd_phone req) (id row) (ridgeways st)))).
  { destruct (latest_sound _ _ _ Hrow) as (Hr & Hv & _).
    apply get_vehicles_in. exists (with_mobile (ussd_phone req) row).
    split; [apply set_mobile_hits, Hr |]. split; [reflexivity | exact Hv]. }
  split; [exact Hin |].
  unfold twilio_ivr. rewrite Hivr. cbn [form_Digits form_From].
  change (lstrip_by (is_char "+") (msisdn req)) with (ussd_phone req).
  destruct (get_vehicles (ussd_phone req)
              (set_mobile (ussd_phone req) (id row) (ridgeways st)));
    [destruct Hin | eexists; reflexivity].
Qed.

Lemma ussd_link_then_ivr_offers_witness :
  In "KCA123X"
    (get_vehicles "254700000001"
       (ridgeways (stores_after (ussd (Fixtures.env_up 404) Fixtures.noon
                                   (Fixtures.dial "98*2*kca123x") Fixtures.only_a)))).
Proof.
  apply (ussd_link_then_ivr_offers (Fixtures.env_up 404) Fixtures.noon
           (Fixtures.dial "98*2*kca123x") Fixtures.only_a "98*2*" "kca123x"
           Fixtures.row_a (Fixtures.env_up 200)).
  - right; left; reflexivity.
  - reflexivity.
  - discriminate.
  - reflexivity.
  - reflexivity.
  - reflexivity.
  - reflexivity.
  - reflexivity.
Defined.

End IvrHandler.


(** ** The WhatsApp handler *)

Section WhatsAppHandler.
Import PyStr Datetime Store Env Main Observe Shape.

Lemma handle_message_pay_pushes (e : env) (m : message) (rows : table)
    (c : command) (row : transaction) :
  parse_message m = Some c ->
  cmd c = "pay" ->
  session_raises e In_receivetext = false ->
  latest (carno_raw c) rows = Some row ->
  pushes (turn_trace (handle_message e m rows))
  = [Call_trigger_mpesa_push (carno_raw c) (pay_phone c)].
Proof.
  intros Hparse Hpay Hup Hrow. unfold handle_message, commit_turn.
  rewrite Hparse, Hpay. cbn [is_command String.eqb Ascii.eqb Bool.eqb].
  rewrite Hup, Hrow.
  pose proof (trigger_mpesa_push_pushes e (carno_raw c) (pay_phone c)) as Hp.
  destruct (trigger_mpesa_push e (carno_raw c) (pay_phone c)) as [[code |] tr];
    simpl in Hp; [| exact Hp].
  destruct (code_is_200 code); cbv zeta;
    destruct (session_raises e At_commit_of_receivetext);
    try destruct (session_raises e At_infobip_request);
    simpl; try exact Hp;
    unfold pushes in *; rewrite filter_app, Hp; reflexivity.
Qed.

(** X21.  A WhatsApp message has an outward effect only as a [pay]
    command for a plate that has a row, once the store session has
    connected and run its statements; and every such message calls the
    payment initiator once, with the parsed plate and destination
    phone.  The push comes before the commit, so it is sent also when
    the Infobip request or the commit raises afterwards.  The [time]
    and [amount] commands, unknown commands and short messages send
    nothing. *)
Theorem handle_message_effects (e : env) (m : message) (rows : table) :
  (turn_trace (handle_message e m rows) = []
   \/ exists c row,
        parse_message m = Some c
        /\ cmd c = "pay"
        /\ session_raises e In_receivetext = false
        /\ latest (carno_raw c) rows = Some row
        /\ pushes (turn_trace (handle_message e m rows))
           = [Call_trigger_mpesa_push (carno_raw c) (pay_phone c)])
  /\ (forall c row,
        parse_message m = Some c ->
        cmd c = "pay" ->
        session_raises e In_receivetext = false ->
        latest (carno_raw c) rows = Some row ->
        pushes (turn_trace (handle_message e m rows))
        = [Call_trigger_mpesa_push (carno_raw c) (pay_phone c)]).
Proof.
  split; [| intros c row; apply handle_message_pay_pushes].
  destruct (parse_message m) as [c |] eqn:Hparse.
  2: { left. unfold handle_message. rewrite Hparse. reflexivity. }
  destruct (is_command (cmd c)) eqn:Hcmd.
  2: { left. unfold handle_message. rewrite Hparse, Hcmd. reflexivity. }
  destruct (session_raises e In_receivetext) eqn:Hup.
  { left. unfold handle_message. rewrite Hparse, Hcmd, Hup. reflexivity. }
  destruct (latest (carno_raw c) rows) as [row |] eqn:Hrow.
  2: { left. unfold handle_message, commit_turn. rewrite Hparse, Hcmd, Hup, Hrow.
       destruct (session_raises e At_commit_of_receivetext); reflexivity. }
  destruct (String.eqb_spec (cmd c) "pay") as [Hpay | Hpay].
  - right. exists c, row. repeat (split; [reflexivity || assumption |]).
    exact (handle_message_pay_pushes e m rows c row Hparse Hpay Hup Hrow).
  - left. unfold handle_message, commit_turn. rewrite Hparse, Hcmd, Hup, Hrow.
    apply String.eqb_neq in Hpay. rewrite Hpay.
    destruct (session_raises e At_commit_of_receivetext); reflexivity.
Qed.




(** X23.  A batch is handled message by message, in order, and stops
    at the first message that raises: what follows that message is not
    handled at all, and otherwise the second part of a batch starts
    from the table the first part left. *)
Theorem receivetext_app (e : env) (first rest : list message) (rows : table) :
  (raised (receivetext e first rows) = true ->
   receivetext e (first ++ rest) rows = receivetext e first rows)
  /\ (raised (receivetext e first rows) = false ->
      receivetext e (first ++ rest) rows
      = mk_turn
          (raised (receivetext e rest (rows_after (receivetext e first rows))))
          (rows_after (receivetext e rest (rows_after (receivetext e first rows))))
          (turn_trace (receivetext e first rows)
             ++ turn_trace (receivetext e rest
                              (rows_after (receivetext e first rows))))%list).
Proof.
  revert rows. induction first as [| m ms IH]; intros rows.
  - simpl. split; [discriminate |]. intros _.
    destruct (receivetext e rest rows); reflexivity.
  - simpl. destruct (raised (handle_message e m rows)) eqn:Hm.
    + rewrite Hm. split; [reflexivity | discriminate].
    + simpl. destruct (IH (rows_after (handle_message e m rows))) as [IH1 IH2].
      split; intros Hr.
      * rewrite (IH1 Hr). reflexivity.
      * rewrite (IH2 Hr). simpl. rewrite app_assoc. reflexivity.
Qed.

Lemma receivetext_app_witness :
  receivetext (Fixtures.env_down In_receivetext 200)
    ([mk_message "pay kca123a" "+254700000001"]
       ++ [mk_message "time kca123a" "+254700000001"]) [Fixtures.row_doc]
  = receivetext (Fixtures.env_down In_receivetext 200)
      [mk_message "pay kca123a" "+254700000001"] [Fixtures.row_doc].
Proof.
  destruct (receivetext_app (Fixtures.env_down In_receivetext 200)
              [mk_message "pay kca123a" "+254700000001"]
              [mk_message "time kca123a" "+254700000001"] [Fixtures.row_doc])
    as [H _].
  apply H. reflexivity.
Defined.

End WhatsAppHandler.


(** ** Repeating a USSD request *)

Section UssdRepeat.
Import PyStr Datetime Store Env Main Observe Shape.

Lemma set_mobile_idem (phone : string) (carid : Z) (rows : table) :
  set_mobile phone carid (set_mobile phone carid rows) = set_mobile phone carid rows.
Proof.
  unfold set_mobile. rewrite List.map_map. apply List.map_ext.
  intros r. destruct (id r =? carid) eqn:E; simpl; rewrite E; reflexivity.
Qed.

Lemma link_phone_to_vehicle_idem (e : env) (carno phone : string) (rows : table) :
  fst (link_phone_to_vehicle e carno phone
         (fst (link_phone_to_vehicle e carno phone rows)))
  = fst (link_phone_to_vehicle e carno phone rows).
Proof.
  unfold link_phone_to_vehicle.
  destruct (session_raises e In_link_phone_to_vehicle) eqn:Hup; simpl.
  - reflexivity.
  - destruct (latest carno rows) as [row |] eqn:Hrow; simpl.
    + rewrite latest_set_mobile, Hrow. simpl.
      rewrite Z.eqb_refl. simpl. apply set_mobile_idem.
    + rewrite Hrow. reflexivity.
Qed.

Lemma pay_input_store
    (e : env) (now_dt : datetime) (phone carno : string) (st : stores) :
  stores_after (pay_input e now_dt phone carno st)
  = if fst (is_rng_vehicle e carno (syfe st)) then st
    else mk_stores (fst (link_phone_to_vehicle e carno phone (ridgeways st)))
           (syfe st).
Proof.
  unfold pay_input.
  destruct (is_rng_vehicle e carno (syfe st)) as [[|] tr1]; [reflexivity |].
  split_calls; reflexivity.
Qed.

Lemma amount_input_store
    (e : env) (now_dt : datetime) (phone carno : string) (st : stores) :
  stores_after (amount_input e now_dt phone carno st)
  = if fst (is_rng_vehicle e carno (syfe st)) then st
    else mk_stores (fst (link_phone_to_vehicle e carno phone (ridgeways st)))
           (syfe st).
Proof.
  unfold amount_input.
  destruct (is_rng_vehicle e carno (syfe st)) as [[|] tr1];
    split_calls; reflexivity.
Qed.

Lemma time_input_store
    (e : env) (now_dt : datetime) (carno : string) (st : stores) :
  stores_after (time_input e now_dt carno st) = st.
Proof.
  unfold time_input.
  destruct (is_rng_vehicle e carno (syfe st)) as [[|] tr1];
    split_calls; reflexivity.
Qed.

(** X24.  Sending the same USSD request again, at any later time and
    in the same environment, leaves the stores exactly as the first
    request left them: the phone link is idempotent. *)
Theorem ussd_store_idempotent
    (e : env) (now1 now2 : datetime) (req : request) (st : stores) :
  stores_after (ussd e now2 req (stores_after (ussd e now1 req st)))
  = stores_after (ussd e now1 req st).
Proof.
  unfold ussd.
  destruct (ussd_branch (ussd_text req)) as [| | g | | g | | g | |];
    try reflexivity.
  - rewrite (pay_input_store e now1).
    destruct (fst (is_rng_vehicle e (plate_of g) (syfe st))) eqn:G;
      rewrite pay_input_store; simpl; rewrite G; [reflexivity |].
    rewrite link_phone_to_vehicle_idem. reflexivity.
  - rewrite (amount_input_store e now1).
    destruct (fst (is_rng_vehicle e (plate_of g) (syfe st))) eqn:G;
      rewrite amount_input_store; simpl; rewrite G; [reflexivity |].
    rewrite link_phone_to_vehicle_idem. reflexivity.
  - rewrite !time_input_store. reflexivity.
Qed.

End UssdRepeat.

(** ** The cursor context manager *)

Section CursorProtocol.
Import Database.

(** X25.  [get_cursor] lets no exception pass exactly when the name is
    known and connect, cursor, body, commit and close all return.  A
    connection that was opened is closed, once and as the last call,
    whatever was raised; commit is attempted only after the body has
    returned; and rollback is called exactly when the connection was
    opened and the first of cursor, body and commit that did not return
    raised an [Exception]: what [except Exception] does not catch
    ([KeyboardInterrupt], [SystemExit]) leaves without a rollback. *)
Theorem get_cursor_protocol (db : string) (r : run) :
  (fst (get_cursor db r) = false
   <-> DATABASES db <> None
       /\ connect r = Done /\ cursor r = Done /\ body r = Done
       /\ commit r = Done /\ close_ok r = true)
  /\ NoDup (snd (get_cursor db r))
  /\ (In Close (snd (get_cursor db r))
      <-> DATABASES db <> None /\ connect r = Done)
  /\ (In Close (snd (get_cursor db r)) ->
      exists before, snd (get_cursor db r) = (before ++ [Close])%list)
  /\ (In Commit (snd (get_cursor db r)) ->
      body r = Done /\ In Body (snd (get_cursor db r)))
  /\ (In Rollback (snd (get_cursor db r))
      <-> DATABASES db <> None /\ connect r = Done
          /\ (cursor r = Raises_exception
              \/ (cursor r = Done /\ body r = Raises_exception)
              \/ (cursor r = Done /\ body r = Done
                  /\ commit r = Raises_exception))).
Proof.
  unfold get_cursor.
  destruct (DATABASES db) as [name |].
  - assert (Hknown : Some name <> @None string) by discriminate.
    destruct r as [[] [] [] [] []];
      cbn [connect cursor body commit close_ok negb fst snd on_raise app];
      repeat match goal with |- _ /\ _ => split end;
      match goal with
      | |- NoDup _ => repeat constructor; simpl; intuition discriminate
      | |- _ <-> _ =>
          split; intros H; simpl in *;
          intuition (try discriminate; try congruence)
      | |- _ -> exists before, ?l = _ =>
          intros H; simpl in H;
          first [ exists (removelast l); reflexivity
                | exfalso; intuition discriminate ]
      | |- _ -> _ /\ _ =>
          intros H; simpl in *; intuition (try discriminate)
      end.
  - cbn [fst snd].
    repeat match goal with |- _ /\ _ => split end;
      match goal with
      | |- NoDup _ => constructor
      | |- _ <-> _ =>
          split; intros H; simpl in *;
          intuition (try discriminate; try congruence)
      | |- _ -> _ => intros H; destruct H
      end.
Qed.

End CursorProtocol.


(** ** The fallback of a payment request *)

Section PayFallback.
Import PyStr Datetime Store Env Main Observe Shape.

(** X26.  When the push of a payment request does not come back as
    code 200 (another code, a transport error or an unparsable body,
    the latter two being turned into code 500), the caller is told
    about the free period: with a row for the plate the reply is "You
    are within free 30 mins. N mins left to exit free." with N the
    minutes left of the 30, never below 0, and without a row it is
    "Vehicle not found!".  The failure itself is not reported. *)
Theorem ussd_pay_fallback
    (e : env) (now_dt : datetime) (req : request) (st : stores) (g : string) :
  ussd_branch (ussd_text req) = At_PAY_INPUT g ->
  fst (is_rng_vehicle e (plate_of g) (syfe st)) = false ->
  session_raises e In_get_vehicle_transaction = false ->
  (pushpayment e (remove_spaces (plate_of g)) (ussd_phone req) = Request_exception
   \/ pushpayment e (remove_spaces (plate_of g)) (ussd_phone req) = Value_error
   \/ exists code,
        pushpayment e (remove_spaces (plate_of g)) (ussd_phone req) = Json_object code
        /\ code <> Some 200) ->
  (forall row, latest (plate_of g) (ridgeways st) = Some row ->
     exists remaining,
       remaining
       = Z.max 0 (30 - total_seconds_floordiv (sub now_dt (time_in row)) 60)
       /\ 0 <= remaining
       /\ response (ussd e now_dt req st)
          = ("END You are within free 30 mins. " ++ str_of_int remaining
               ++ " mins left to exit free.")%string)
  /\ (latest (plate_of g) (ridgeways st) = None ->
      response (ussd e now_dt req st) = NOT_FOUND).
Proof.
  intros Hb Hrng Hup Hpush. unfold ussd. rewrite Hb. unfold pay_input.
  destruct (is_rng_vehicle e (plate_of g) (syfe st)) as [rng tr1].
  simpl in Hrng. subst rng.
  destruct (link_phone_to_vehicle_effect e (plate_of g) (ussd_phone req)
              (ridgeways st)) as (_ & _ & Hg).
  destruct (link_phone_to_vehicle e (plate_of g) (ussd_phone req) (ridgeways st))
    as [rows tr2].
  simpl in Hg.
  assert (Hres : exists code tr3,
             trigger_mpesa_push e (plate_of g) (ussd_phone req) = (Dict code, tr3)
             /\ code_is_200 code = false).
  { unfold trigger_mpesa_push.
    destruct Hpush as [-> | [-> | (code & -> & Hcode)]].
    - exists (Some 500). eexists. split; reflexivity.
    - exists (Some 500). eexists. split; reflexivity.
    - exists code. eexists. split; [reflexivity |].
      destruct code as [c |]; [| reflexivity]. simpl.
      apply Z.eqb_neq. congruence. }
  destruct Hres as (code & tr3 & -> & ->).
  rewrite Hg. unfold get_vehicle_transaction. rewrite Hup.
  split.
  - intros row ->. simpl. eexists. split; [reflexivity |].
    split; [apply Z.le_max_l | reflexivity].
  - intros ->. reflexivity.
Qed.

Lemma ussd_pay_fallback_witness :
  response (ussd (Fixtures.env_up 404) Fixtures.noon
              (Fixtures.dial "98*1*kca123x") Fixtures.only_a)
  = "END You are within free 30 mins. 0 mins left to exit free.".
Proof.
  destruct (ussd_pay_fallback (Fixtures.env_up 404) Fixtures.noon
              (Fixtures.dial "98*1*kca123x") Fixtures.only_a "kca123x")
    as [H _].
  - reflexivity.
  - reflexivity.
  - reflexivity.
  - right; right. exists (Some 404). split; [reflexivity | discriminate].
  - destruct (H Fixtures.row_a eq_refl) as (remaining & -> & _ & Hr).
    exact Hr.
Defined.

End PayFallback.
